(** * Window: session bootstrap, event loop and teardown

    A shallow embedding of [src/window/Window.h] and [src/window/Window.cpp].
    The class [Window] owns a GLFW window, a Vulkan instance and a
    presentation surface.  Everything it does is a sequence of calls to
    three external collaborators (GLFW, Vulkan, the logger), so the
    embedding threads an explicit world through every member function:
    the fields of the object, the state of the provider, the callback
    slots of the GLFW window and the list of collaborator calls made so
    far, oldest first. *)

From Stdlib Require Import ZArith List String Bool Lia.
Import ListNotations.

Local Open Scope string_scope.
Local Open Scope list_scope.
Local Open Scope Z_scope.

(** ** Values of the C interface *)

(** Pointers and Vulkan handles are opaque; only null is distinguished. *)
Definition Handle := Z.
Definition nullptr : Handle := 0.
Definition VK_NULL_HANDLE : Handle := 0.

Definition VkResult := Z.
Definition VK_SUCCESS : VkResult := 0.

(** Constants of glfw3.h. *)
Definition GLFW_FALSE : Z := 0.
Definition GLFW_RELEASE : Z := 0.
Definition GLFW_PRESS : Z := 1.
Definition GLFW_REPEAT : Z := 2.
Definition GLFW_MOUSE_BUTTON_LEFT : Z := 0.
Definition GLFW_MOUSE_BUTTON_RIGHT : Z := 1.
Definition GLFW_MOUSE_BUTTON_MIDDLE : Z := 2.
Definition GLFW_RESIZABLE : Z := 131075.   (* 0x00020003 *)
Definition GLFW_CLIENT_API : Z := 139265.  (* 0x00022001 *)
Definition GLFW_NO_API : Z := 0.

(** Constants and macros of vulkan_core.h. *)
Definition VK_STRUCTURE_TYPE_APPLICATION_INFO : Z := 0.
Definition VK_STRUCTURE_TYPE_INSTANCE_CREATE_INFO : Z := 1.
Definition VK_INSTANCE_CREATE_ENUMERATE_PORTABILITY_BIT_KHR : Z := 1.
Definition VK_KHR_PORTABILITY_ENUMERATION_EXTENSION_NAME : string :=
  "VK_KHR_portability_enumeration".

(** [s.c_str()] as the callee of a C interface reads it: the characters
    of [s] before its first NUL byte. *)
Fixpoint c_str (s : string) : string :=
  match s with
  | EmptyString => EmptyString
  | String a r =>
      if Ascii.eqb a Ascii.zero then EmptyString else String a (c_str r)
  end.

(** [(uint32_t) z]. *)
Definition uint32 (z : Z) : Z := z mod 2 ^ 32.

(** An [unsigned int] argument passed where the callee takes an [int]. *)
Definition int_of_unsigned (u : Z) : Z :=
  if uint32 u <? 2 ^ 31 then uint32 u else uint32 u - 2 ^ 32.

Definition VK_MAKE_API_VERSION (variant major minor patch : Z) : Z :=
  Z.lor (Z.lor (Z.lor (Z.shiftl (uint32 variant) 29)
                      (Z.shiftl (uint32 major) 22))
               (Z.shiftl (uint32 minor) 12))
        (uint32 patch).

Record VkApplicationInfo := mkAppInfo {
  ai_sType : Z;
  ai_pNext : Handle;
  pApplicationName : string;
  applicationVersion : Z;
  pEngineName : string;
  engineVersion : Z;
  apiVersion : Z
}.

Record VkInstanceCreateInfo := mkCreateInfo {
  ci_sType : Z;
  ci_pNext : Handle;
  flags : Z;
  pApplicationInfo : VkApplicationInfo;
  enabledLayerCount : Z;
  enabledExtensionCount : Z;
  ppEnabledExtensionNames : list string
}.

(** ** The logger *)

(** An argument of the variadic [Logger::log].  A [const char *] is
    [None] when it is the null pointer. *)
Inductive LogArg :=
| CStr (p : option string)
| Int (i : Z)
| UInt (u : Z).

Definition Str (s : string) : LogArg := CStr (Some s).

Definition nl : string := String (Ascii.ascii_of_nat 10) EmptyString.

(** ** Collaborator calls *)

Inductive Call :=
| GlfwInit
| GlfwVulkanSupported
| GlfwTerminate
| GlfwWindowHint (hint value : Z)
| GlfwCreateWindow (width height : Z) (title : string)
| GlfwGetRequiredInstanceExtensions
| VkCreateInstance (info : VkInstanceCreateInfo)
| VkEnumeratePhysicalDevices (instance : Handle) (count : Z)
                             (pPhysicalDevices : option (list Handle))
| GlfwCreateWindowSurface (instance window : Handle)
| GlfwSetWindowUserPointer (window : Handle)
| GlfwGetWindowUserPointer (window : Handle)
| GlfwSetWindowCloseCallback (window : Handle)
| GlfwSetKeyCallback (window : Handle)
| GlfwSetMouseButtonCallback (window : Handle)
| GlfwWindowShouldClose (window : Handle)
| GlfwPollEvents
| GlfwGetKeyName (key scancode : Z)
| VkDestroySurfaceKHR (instance surface : Handle)
| VkDestroyInstance (instance : Handle)
| GlfwDestroyWindow (window : Handle)
| LoggerLog (level : Z) (format : string) (args : list LogArg).

Definition isLog (c : Call) : bool :=
  match c with LoggerLog _ _ _ => true | _ => false end.

Definition isTerminate (c : Call) : bool :=
  match c with GlfwTerminate => true | _ => false end.

Definition isCreateWindow (c : Call) : bool :=
  match c with GlfwCreateWindow _ _ _ => true | _ => false end.

Definition isCreateInstance (c : Call) : bool :=
  match c with VkCreateInstance _ => true | _ => false end.

Definition isCreateSurface (c : Call) : bool :=
  match c with GlfwCreateWindowSurface _ _ => true | _ => false end.

(** The calls that release something. *)
Definition isTeardown (c : Call) : bool :=
  match c with
  | GlfwTerminate | VkDestroySurfaceKHR _ _ | VkDestroyInstance _
  | GlfwDestroyWindow _ => true
  | _ => false
  end.

(** The calls made to the windowing and rendering providers, the
    logger's lines left out. *)
Definition providerCalls (t : list Call) : list Call :=
  filter (fun c => negb (isLog c)) t.

(** ** Events delivered by the provider during a poll *)

(** An event is what the provider passes to the callback of its kind,
    the window first. *)
Inductive Event :=
| WindowClose (win : Handle)
| Key (win : Handle) (key scancode action mods : Z)
| MouseButton (win : Handle) (button action mods : Z).

(** ** The provider

    GLFW and Vulkan are outside the repository: their answers are taken
    as an interface over an abstract provider state.  Queries do not
    change the state; the others return the next one.  An output
    parameter ([&mInstance], [&mSurface]) is passed as the value the
    slot holds before the call and comes back as the value it holds
    after it.  A C string the provider returns (an extension name, a
    key name) is the string of its characters, the terminating NUL left
    out. *)
Class Provider (P : Type) := {
  provInit : P -> bool * P;
  provVulkanSupported : P -> bool;
  provTerminate : P -> P;
  provWindowHint : Z -> Z -> P -> P;
  provCreateWindow : Z -> Z -> string -> P -> Handle * P;
  provRequiredInstanceExtensions : P -> list string;
  provCreateInstance : VkInstanceCreateInfo -> Handle -> P -> VkResult * Handle * P;
  provEnumeratePhysicalDevices :
    Handle -> Z -> option (list Handle) -> P -> Z * list Handle * P;
  provCreateWindowSurface : Handle -> Handle -> Handle -> P -> VkResult * Handle * P;
  provWindowShouldClose : Handle -> P -> bool;
  provPollEvents : P -> list Event * P;
  provGetKeyName : Z -> Z -> P -> option string;
  provDestroySurface : Handle -> Handle -> P -> P;
  provDestroyInstance : Handle -> P -> P;
  provDestroyWindow : Handle -> P -> P
}.

(** ** The object and the world around it *)

Record Window := mkWindow {
  mWindow : Handle;
  mApplicationName : string;
  mInstance : Handle;
  mSurface : Handle
}.

(** The in-class initialisers of Window.h. *)
Definition newWindow : Window :=
  mkWindow nullptr "" VK_NULL_HANDLE VK_NULL_HANDLE.

(** What the session stores on the GLFW window: the user pointer (set
    to [this] or not) and which of the three callbacks are installed. *)
Record WindowSlots := mkSlots {
  userPointer : bool;
  closeCallback : bool;
  keyCallback : bool;
  mouseButtonCallback : bool
}.

Definition noSlots : WindowSlots := mkSlots false false false false.

Record World (P : Type) := mkWorld {
  session : Window;
  provider : P;
  slots : WindowSlots;
  calls : list Call
}.
Arguments mkWorld {P} _ _ _ _.
Arguments session {P} _.
Arguments provider {P} _.
Arguments slots {P} _.
Arguments calls {P} _.

Definition M (P A : Type) : Type := World P -> A * World P.

Definition ret {P A} (a : A) : M P A := fun s => (a, s).

Definition bind {P A B} (m : M P A) (k : A -> M P B) : M P B :=
  fun s => let (a, s') := m s in k a s'.

Notation "x <- m ;; k" := (bind m (fun x => k))
  (at level 61, m at next level, right associativity).
Notation "m ;; k" := (bind m (fun _ => k))
  (at level 61, right associativity).

Fixpoint forEach {P A} (l : list A) (body : A -> M P unit) : M P unit :=
  match l with
  | [] => ret tt
  | x :: r => body x ;; forEach r body
  end.

Section Session.
Context {P : Type} `{Provider P}.

(** *** World access *)

Definition call (c : Call) : M P unit :=
  fun s => (tt, mkWorld (session s) (provider s) (slots s) (calls s ++ [c])).

Definition ask {A} (q : P -> A) : M P A :=
  fun s => (q (provider s), s).

Definition act {A} (f : P -> A * P) : M P A :=
  fun s => let (a, p) := f (provider s) in
           (a, mkWorld (session s) p (slots s) (calls s)).

Definition this : M P Window := fun s => (session s, s).

Definition assign (f : Window -> Window) : M P unit :=
  fun s => (tt, mkWorld (f (session s)) (provider s) (slots s) (calls s)).

Definition getSlots : M P WindowSlots := fun s => (slots s, s).

Definition setSlots (f : WindowSlots -> WindowSlots) : M P unit :=
  fun s => (tt, mkWorld (session s) (provider s) (f (slots s)) (calls s)).

Definition set_mWindow (h : Handle) : M P unit :=
  assign (fun w => mkWindow h (mApplicationName w) (mInstance w) (mSurface w)).
Definition set_mApplicationName (n : string) : M P unit :=
  assign (fun w => mkWindow (mWindow w) n (mInstance w) (mSurface w)).
Definition set_mInstance (h : Handle) : M P unit :=
  assign (fun w => mkWindow (mWindow w) (mApplicationName w) h (mSurface w)).
Definition set_mSurface (h : Handle) : M P unit :=
  assign (fun w => mkWindow (mWindow w) (mApplicationName w) (mInstance w) h).

(** *** The collaborators, each call recorded *)

Definition Logger_log (level : Z) (format : string) (args : list LogArg)
  : M P unit :=
  call (LoggerLog level format args).

Definition glfwInit : M P bool :=
  call GlfwInit ;; act provInit.

Definition glfwVulkanSupported : M P bool :=
  call GlfwVulkanSupported ;; ask provVulkanSupported.

(** Terminating the library destroys every window still open. *)
Definition glfwTerminate : M P unit :=
  call GlfwTerminate ;;
  act (fun p => (tt, provTerminate p)) ;;
  setSlots (fun _ => noSlots).

Definition glfwWindowHint (hint value : Z) : M P unit :=
  call (GlfwWindowHint hint value) ;;
  act (fun p => (tt, provWindowHint hint value p)).

Definition glfwCreateWindow (width height : Z) (title : string) : M P Handle :=
  call (GlfwCreateWindow width height title) ;;
  setSlots (fun _ => noSlots) ;;
  act (provCreateWindow width height title).

(** The count written through the [uint32_t *] argument is the length
    of the array returned. *)
Definition glfwGetRequiredInstanceExtensions : M P (Z * list string) :=
  call GlfwGetRequiredInstanceExtensions ;;
  exts <- ask provRequiredInstanceExtensions ;;
  ret (Z.of_nat (List.length exts), exts).

Definition vkCreateInstance (info : VkInstanceCreateInfo) : M P VkResult :=
  call (VkCreateInstance info) ;;
  w <- this ;;
  r <- act (fun p => let '(r, h, p') := provCreateInstance info (mInstance w) p in
                     ((r, h), p')) ;;
  set_mInstance (snd r) ;;
  ret (fst r).

Definition vkEnumeratePhysicalDevices (instance : Handle) (count : Z)
    (pPhysicalDevices : option (list Handle)) : M P (Z * list Handle) :=
  call (VkEnumeratePhysicalDevices instance count pPhysicalDevices) ;;
  act (fun p =>
         let '(n, ds, p') :=
           provEnumeratePhysicalDevices instance count pPhysicalDevices p in
         ((n, ds), p')).

Definition glfwCreateWindowSurface (instance window : Handle) : M P VkResult :=
  call (GlfwCreateWindowSurface instance window) ;;
  w <- this ;;
  r <- act (fun p => let '(r, h, p') :=
                       provCreateWindowSurface instance window (mSurface w) p in
                     ((r, h), p')) ;;
  set_mSurface (snd r) ;;
  ret (fst r).

Definition glfwSetWindowUserPointer (window : Handle) : M P unit :=
  call (GlfwSetWindowUserPointer window) ;;
  setSlots (fun c => mkSlots true (closeCallback c) (keyCallback c)
                             (mouseButtonCallback c)).

(** The pointer read back is null ([false]) or [this] ([true]). *)
Definition glfwGetWindowUserPointer (window : Handle) : M P bool :=
  call (GlfwGetWindowUserPointer window) ;;
  c <- getSlots ;;
  ret (userPointer c).

Definition glfwSetWindowCloseCallback (window : Handle) : M P unit :=
  call (GlfwSetWindowCloseCallback window) ;;
  setSlots (fun c => mkSlots (userPointer c) true (keyCallback c)
                             (mouseButtonCallback c)).

Definition glfwSetKeyCallback (window : Handle) : M P unit :=
  call (GlfwSetKeyCallback window) ;;
  setSlots (fun c => mkSlots (userPointer c) (closeCallback c) true
                             (mouseButtonCallback c)).

Definition glfwSetMouseButtonCallback (window : Handle) : M P unit :=
  call (GlfwSetMouseButtonCallback window) ;;
  setSlots (fun c => mkSlots (userPointer c) (closeCallback c)
                             (keyCallback c) true).

Definition glfwWindowShouldClose (window : Handle) : M P bool :=
  call (GlfwWindowShouldClose window) ;; ask (provWindowShouldClose window).

Definition glfwGetKeyName (key scancode : Z) : M P (option string) :=
  call (GlfwGetKeyName key scancode) ;; ask (provGetKeyName key scancode).

Definition vkDestroySurfaceKHR (instance surface : Handle) : M P unit :=
  call (VkDestroySurfaceKHR instance surface) ;;
  act (fun p => (tt, provDestroySurface instance surface p)).

Definition vkDestroyInstance (instance : Handle) : M P unit :=
  call (VkDestroyInstance instance) ;;
  act (fun p => (tt, provDestroyInstance instance p)).

Definition glfwDestroyWindow (window : Handle) : M P unit :=
  call (GlfwDestroyWindow window) ;;
  act (fun p => (tt, provDestroyWindow window p)) ;;
  setSlots (fun _ => noSlots).

(** *** Window.cpp *)

Definition handleWindowCloseEvents : M P unit :=
  Logger_log 1 ("%s: Window close event... bye!" ++ nl)
             [Str "handleWindowCloseEvents"].

Definition keyActionName (action : Z) : string :=
  if action =? GLFW_PRESS then "pressed"
  else if action =? GLFW_RELEASE then "released"
  else if action =? GLFW_REPEAT then "repeated"
  else "unknown".

Definition handleKeyEvents (key scancode action mods : Z) : M P unit :=
  let actionName := keyActionName action in
  keyName <- glfwGetKeyName key 0 ;;
  Logger_log 1 ("%s: key %s (key %i, scancode %i) %s" ++ nl)
             [Str "handleKeyEvents"; CStr keyName; Int key; Int scancode;
              Str actionName].

Definition mouseActionName (action : Z) : string :=
  if action =? GLFW_PRESS then "pressed"
  else if action =? GLFW_RELEASE then "released"
  else "unknown".

Definition mouseButtonName (button : Z) : string :=
  if button =? GLFW_MOUSE_BUTTON_LEFT then "left"
  else if button =? GLFW_MOUSE_BUTTON_MIDDLE then "middle"
  else if button =? GLFW_MOUSE_BUTTON_RIGHT then "right"
  else "unknown".

Definition handleMouseButtonEvents (button action mods : Z) : M P unit :=
  let actionName := mouseActionName action in
  let mouseButtonName := mouseButtonName button in
  Logger_log 1 ("%s: %s mouse button (%i) %s" ++ nl)
             [Str "handleMouseButtonEvents"; Str mouseButtonName; Int button;
              Str actionName].

Definition emplace_back {A} (v : list A) (x : A) : list A := v ++ [x].

(** The two descriptors [initVulkan] fills in before it creates the
    instance. *)
Definition mAppInfo (w : Window) : VkApplicationInfo :=
  mkAppInfo VK_STRUCTURE_TYPE_APPLICATION_INFO nullptr
            (c_str (mApplicationName w))
            (VK_MAKE_API_VERSION 0 0 0 1)
            "Game Animations Programming"
            (VK_MAKE_API_VERSION 0 1 0 0)
            (VK_MAKE_API_VERSION 0 1 1 0).

Definition mCreateInfo (w : Window) (extensions : list string)
  : VkInstanceCreateInfo :=
  let requiredExtensions := fold_left emplace_back extensions [] in
  let requiredExtensions :=
    emplace_back requiredExtensions
                 VK_KHR_PORTABILITY_ENUMERATION_EXTENSION_NAME in
  mkCreateInfo VK_STRUCTURE_TYPE_INSTANCE_CREATE_INFO nullptr
               (Z.lor 0 VK_INSTANCE_CREATE_ENUMERATE_PORTABILITY_BIT_KHR)
               (mAppInfo w)
               0
               (uint32 (Z.of_nat (List.length requiredExtensions)))
               requiredExtensions.

Definition initVulkan : M P bool :=
  w <- this ;;
  ec <- glfwGetRequiredInstanceExtensions ;;
  let extensionCount := fst ec in
  let extensions := snd ec in
  if extensionCount =? 0 then
    Logger_log 1 ("%s error: no Vulkan extensions found, need at least 'VK_KHR_surface'" ++ nl)
               [Str "initVulkan"] ;;
    ret false
  else
    Logger_log 1 ("%s: Found %u Vulkan extensions" ++ nl)
               [Str "initVulkan"; UInt extensionCount] ;;
    forEach extensions
            (fun e => Logger_log 1 ("%s: %s" ++ nl) [Str "initVulkan"; Str e]) ;;
    result <- vkCreateInstance (mCreateInfo w extensions) ;;
    if negb (result =? VK_SUCCESS) then
      Logger_log 1 ("%s: Could not create Vulkan instance (%i)" ++ nl)
                 [Str "initVulkan"; Int result] ;;
      ret false
    else
      w <- this ;;
      first <- vkEnumeratePhysicalDevices (mInstance w) 0 None ;;
      let physicalDeviceCount := fst first in
      if physicalDeviceCount =? 0 then
        Logger_log 1 ("%s: No Vulkan capable GPU found" ++ nl)
                   [Str "initVulkan"] ;;
        ret false
      else
        let devices := repeat VK_NULL_HANDLE (Z.to_nat physicalDeviceCount) in
        second <- vkEnumeratePhysicalDevices (mInstance w) physicalDeviceCount
                                             (Some devices) ;;
        let physicalDeviceCount := fst second in
        Logger_log 1 ("%s: Found %u physical device(s)" ++ nl)
                   [Str "initVulkan"; UInt physicalDeviceCount] ;;
        result <- glfwCreateWindowSurface (mInstance w) (mWindow w) ;;
        if negb (result =? VK_SUCCESS) then
          Logger_log 1 ("%s: Could not create Vulkan surface" ++ nl)
                     [Str "initVulkan"] ;;
          ret false
        else ret true.

Definition init (width height : Z) (title : string) : M P bool :=
  ok <- glfwInit ;;
  if negb ok then
    Logger_log 1 ("%s: glfwInit() error" ++ nl) [Str "init"] ;;
    ret false
  else
    supported <- glfwVulkanSupported ;;
    if negb supported then
      glfwTerminate ;;
      Logger_log 1 ("%s: Vulkan is not supported" ++ nl) [Str "init"] ;;
      ret false
    else
      glfwWindowHint GLFW_RESIZABLE GLFW_FALSE ;;
      set_mApplicationName title ;;
      glfwWindowHint GLFW_CLIENT_API GLFW_NO_API ;;
      w <- this ;;
      h <- glfwCreateWindow (int_of_unsigned width) (int_of_unsigned height)
                            (c_str (mApplicationName w)) ;;
      set_mWindow h ;;
      if h =? nullptr then
        Logger_log 1 ("%s: Could not create window" ++ nl) [Str "init"] ;;
        glfwTerminate ;;
        ret false
      else
        vulkan <- initVulkan ;;
        if negb vulkan then
          Logger_log 1 ("%s: Could not init Vulkan" ++ nl) [Str "init"] ;;
          glfwTerminate ;;
          ret false
        else
          w <- this ;;
          glfwSetWindowUserPointer (mWindow w) ;;
          glfwSetWindowCloseCallback (mWindow w) ;;
          glfwSetKeyCallback (mWindow w) ;;
          glfwSetMouseButtonCallback (mWindow w) ;;
          Logger_log 1 ("%s: Window successfully initialized" ++ nl) [Str "init"] ;;
          ret true.

(** The three lambdas installed by [init]: each reads the user pointer
    of the window it is called for, takes it for the session and
    forwards to the session's handler.  The provider runs a lambda only
    if it has been installed; [init] installs them after it has set the
    user pointer, so the pointer a lambda reads is never null. *)
Definition deliver (e : Event) : M P unit :=
  c <- getSlots ;;
  match e with
  | WindowClose win =>
      if closeCallback c then
        thisWindow <- glfwGetWindowUserPointer win ;;
        if thisWindow then handleWindowCloseEvents else ret tt
      else ret tt
  | Key win key scancode action mods =>
      if keyCallback c then
        thisWindow <- glfwGetWindowUserPointer win ;;
        if thisWindow then handleKeyEvents key scancode action mods
        else ret tt
      else ret tt
  | MouseButton win button action mods =>
      if mouseButtonCallback c then
        thisWindow <- glfwGetWindowUserPointer win ;;
        if thisWindow then handleMouseButtonEvents button action mods
        else ret tt
      else ret tt
  end.

(** One poll: the provider hands over the events pending now, and each
    one is dispatched before the call returns, in delivery order. *)
Definition glfwPollEvents : M P unit :=
  call GlfwPollEvents ;;
  pending <- act provPollEvents ;;
  forEach pending deliver.

(** [mainLoop] need not return; [fuel] bounds the number of polls, and
    [None] says the loop is still running when the bound is reached. *)
Fixpoint mainLoop (fuel : nat) (s : World P) : option (unit * World P) :=
  let (closed, s1) := glfwWindowShouldClose (mWindow (session s)) s in
  if negb closed then
    match fuel with
    | O => None
    | S fuel' => mainLoop fuel' (snd (glfwPollEvents s1))
    end
  else Some (tt, s1).

Definition cleanup : M P unit :=
  Logger_log 1 ("%s: Terminating Window" ++ nl) [Str "cleanup"] ;;
  w <- this ;;
  vkDestroySurfaceKHR (mInstance w) (mSurface w) ;;
  vkDestroyInstance (mInstance w) ;;
  glfwDestroyWindow (mWindow w) ;;
  glfwTerminate.

(** *** Reading the event loop *)

(** The close flag as the loop condition reads it. *)
Definition closeFlag (s : World P) : bool :=
  provWindowShouldClose (mWindow (session s)) (provider s).

(** One turn of the loop that finds the flag clear: the test, then a
    whole poll. *)
Definition pollOnce (s : World P) : World P :=
  snd (glfwPollEvents (snd (glfwWindowShouldClose (mWindow (session s)) s))).

Fixpoint afterPolls (k : nat) (s : World P) : World P :=
  match k with
  | O => s
  | S k' => afterPolls k' (pollOnce s)
  end.

(** The calls one delivered event gives rise to, for given slots and
    provider state. *)
Definition eventCalls (c : WindowSlots) (p : P) (e : Event) : list Call :=
  calls (snd (deliver e (mkWorld newWindow p c []))).

End Session.

(** ** A scripted provider

    A provider whose every answer is written down in advance; it is the
    instance the general statements are run on. *)
Module Scripted.

Record State := mkState {
  initOk : bool;
  vulkanOk : bool;
  window : Handle;
  extensions : list string;
  instance : VkResult * Handle;
  devices : list Handle;
  surface : VkResult * Handle;
  keyNames : list (Z * string);
  polls : list (list Event);
  shouldClose : bool
}.

Definition isClose (e : Event) : bool :=
  match e with WindowClose _ => true | _ => false end.

Fixpoint keyName (names : list (Z * string)) (key : Z) : option string :=
  match names with
  | [] => None
  | (k, n) :: r => if k =? key then Some n else keyName r key
  end.

Definition enumerate (p : State) (count : Z) (array : option (list Handle))
  : Z * list Handle * State :=
  match array with
  | None => (Z.of_nat (List.length (devices p)), [], p)
  | Some _ =>
      let written := firstn (Z.to_nat count) (devices p) in
      (Z.of_nat (List.length written), written, p)
  end.

(** A close request raises the flag before the poll returns. *)
Definition poll (p : State) : list Event * State :=
  match polls p with
  | [] => ([], p)
  | batch :: rest =>
      (batch,
       mkState (initOk p) (vulkanOk p) (window p) (extensions p) (instance p)
               (devices p) (surface p) (keyNames p) rest
               (shouldClose p || existsb isClose batch))
  end.

#[export] Instance scripted : Provider State := {
  provInit p := (initOk p, p);
  provVulkanSupported p := vulkanOk p;
  provTerminate p := p;
  provWindowHint _ _ p := p;
  provCreateWindow _ _ _ p := (window p, p);
  provRequiredInstanceExtensions p := extensions p;
  provCreateInstance _ _ p := (fst (instance p), snd (instance p), p);
  provEnumeratePhysicalDevices _ count array p := enumerate p count array;
  provCreateWindowSurface _ _ _ p := (fst (surface p), snd (surface p), p);
  provWindowShouldClose _ p := shouldClose p;
  provPollEvents p := poll p;
  provGetKeyName key _ p := keyName (keyNames p) key;
  provDestroySurface _ _ p := p;
  provDestroyInstance _ p := p;
  provDestroyWindow _ p := p
}.

(** A machine on which everything works: one GPU, two extensions, and
    three polls of input, the window being closed during the second. *)
Definition healthy : State :=
  mkState true true 41
          ["VK_KHR_surface"; "VK_KHR_xcb_surface"]
          (VK_SUCCESS, 42) [7] (VK_SUCCESS, 43)
          [(65, "a")]
          [[Key 41 65 38 1 0];
           [MouseButton 41 0 1 0; WindowClose 41; Key 41 256 9 3 0];
           [Key 41 65 38 0 0]]
          false.

Definition withInitOk (b : bool) (p : State) : State :=
  mkState b (vulkanOk p) (window p) (extensions p) (instance p)
          (devices p) (surface p) (keyNames p) (polls p) (shouldClose p).

Definition withVulkanOk (b : bool) (p : State) : State :=
  mkState (initOk p) b (window p) (extensions p) (instance p)
          (devices p) (surface p) (keyNames p) (polls p) (shouldClose p).

Definition withWindow (h : Handle) (p : State) : State :=
  mkState (initOk p) (vulkanOk p) h (extensions p) (instance p)
          (devices p) (surface p) (keyNames p) (polls p) (shouldClose p).

Definition withExtensions (e : list string) (p : State) : State :=
  mkState (initOk p) (vulkanOk p) (window p) e (instance p)
          (devices p) (surface p) (keyNames p) (polls p) (shouldClose p).

Definition withDevices (d : list Handle) (p : State) : State :=
  mkState (initOk p) (vulkanOk p) (window p) (extensions p) (instance p)
          d (surface p) (keyNames p) (polls p) (shouldClose p).

Definition withSurface (r : VkResult * Handle) (p : State) : State :=
  mkState (initOk p) (vulkanOk p) (window p) (extensions p) (instance p)
          (devices p) r (keyNames p) (polls p) (shouldClose p).

(** A freshly constructed [Window] in front of provider [p]. *)
Definition fresh (p : State) : World State := mkWorld newWindow p noSlots [].

(** The world in which [init] calls [initVulkan]: the title stored and
    the window created. *)
Definition created (p : State) : World State :=
  mkWorld (mkWindow (window p) "App" VK_NULL_HANDLE VK_NULL_HANDLE)
          p noSlots [].

(** The world a successful [init] leaves on the healthy machine. *)
Definition running : World State := snd (init 800 600 "App" (fresh healthy)).

(** The healthy machine with one thing going wrong. *)
Definition noGlfw : State := withInitOk false healthy.
Definition noVulkan : State := withVulkanOk false healthy.
Definition noExtensions : State := withExtensions [] healthy.
Definition noGpu : State := withDevices [] healthy.
Definition noSurface : State := withSurface (-3, VK_NULL_HANDLE) healthy.

End Scripted.

(** ** Classes of calls *)

(** The calls that acquire or release a resource. *)
Definition isLifecycle (c : Call) : bool :=
  match c with
  | GlfwInit | GlfwCreateWindow _ _ _ | VkCreateInstance _
  | GlfwCreateWindowSurface _ _ | VkDestroySurfaceKHR _ _
  | VkDestroyInstance _ | GlfwDestroyWindow _ | GlfwTerminate => true
  | _ => false
  end.

(** The calls that store something on the GLFW window. *)
Definition isRegistration (c : Call) : bool :=
  match c with
  | GlfwSetWindowUserPointer _ | GlfwSetWindowCloseCallback _
  | GlfwSetKeyCallback _ | GlfwSetMouseButtonCallback _ => true
  | _ => false
  end.

(** The calls [initVulkan] is made of. *)
Definition isVulkanSetup (c : Call) : bool :=
  match c with
  | GlfwGetRequiredInstanceExtensions | LoggerLog _ _ _ | VkCreateInstance _
  | VkEnumeratePhysicalDevices _ _ _ | GlfwCreateWindowSurface _ _ => true
  | _ => false
  end.

(** The calls [mainLoop] and the handlers are made of. *)
Definition isLoopCall (c : Call) : bool :=
  match c with
  | GlfwWindowShouldClose _ | GlfwPollEvents | GlfwGetWindowUserPointer _
  | GlfwGetKeyName _ _ | LoggerLog _ _ _ => true
  | _ => false
  end.

Definition isFlagTest (c : Call) : bool :=
  match c with GlfwWindowShouldClose _ => true | _ => false end.

Definition isPoll (c : Call) : bool :=
  match c with GlfwPollEvents => true | _ => false end.

Definition isEnumerate (c : Call) : bool :=
  match c with VkEnumeratePhysicalDevices _ _ _ => true | _ => false end.

(** The [__FUNCTION__] a log line starts with. *)
Definition logFunction (c : Call) : option string :=
  match c with
  | LoggerLog _ _ (CStr f :: _) => f
  | _ => None
  end.

(** The member function each lambda of [init] forwards to. *)
Definition handlerName (e : Event) : string :=
  match e with
  | WindowClose _ => "handleWindowCloseEvents"
  | Key _ _ _ _ _ => "handleKeyEvents"
  | MouseButton _ _ _ _ => "handleMouseButtonEvents"
  end.

(** A log line written by one of the three event handlers. *)
Definition isHandlerLog (c : Call) : bool :=
  match logFunction c with
  | Some f =>
      existsb (String.eqb f)
              ["handleWindowCloseEvents"; "handleKeyEvents";
               "handleMouseButtonEvents"]
  | None => false
  end.

(** The slots once [init] has succeeded. *)
Definition allSlots : WindowSlots := mkSlots true true true true.

(** The calls by which a successful [init] installs the callbacks. *)
Definition registrationCalls (window : Handle) : list Call :=
  [GlfwSetWindowUserPointer window; GlfwSetWindowCloseCallback window;
   GlfwSetKeyCallback window; GlfwSetMouseButtonCallback window].

(** The calls of [init] up to and including the window creation. *)
Definition windowCalls (width height : Z) (title : string) : list Call :=
  [GlfwInit; GlfwVulkanSupported;
   GlfwWindowHint GLFW_RESIZABLE GLFW_FALSE;
   GlfwWindowHint GLFW_CLIENT_API GLFW_NO_API;
   GlfwCreateWindow (int_of_unsigned width) (int_of_unsigned height)
                    (c_str title)].

(** The world in which [init] calls [initVulkan], the provider having
    created window [h] and being left in state [p]. *)
Definition enteringVulkan {P : Type} (width height : Z) (title : string)
    (h : Handle) (p : P) (s : World P) : World P :=
  mkWorld (mkWindow h title (mInstance (session s)) (mSurface (session s)))
          p noSlots (calls s ++ windowCalls width height title).

(** The calls of [initVulkan] up to and including the instance
    creation, for a non-empty list of extensions. *)
Definition instanceCalls (w : Window) (extensions : list string) : list Call :=
  [GlfwGetRequiredInstanceExtensions;
   LoggerLog 1 ("%s: Found %u Vulkan extensions" ++ nl)
             [Str "initVulkan"; UInt (Z.of_nat (List.length extensions))]] ++
  map (fun e => LoggerLog 1 ("%s: %s" ++ nl) [Str "initVulkan"; Str e])
      extensions ++
  [VkCreateInstance (mCreateInfo w extensions)].

(** The calls [cleanup] makes on session [w]. *)
Definition cleanupCalls (w : Window) : list Call :=
  [LoggerLog 1 ("%s: Terminating Window" ++ nl) [Str "cleanup"];
   VkDestroySurfaceKHR (mInstance w) (mSurface w);
   VkDestroyInstance (mInstance w);
   GlfwDestroyWindow (mWindow w);
   GlfwTerminate].

(** The world in which [mainLoop] returns on the healthy machine. *)
Definition closed : World Scripted.State :=
  match @mainLoop _ Scripted.scripted 5 Scripted.running with
  | Some (_, s) => s
  | None => Scripted.running
  end.

(** A title with a NUL byte in it: "A", NUL, "B". *)
Definition nulTitle : string :=
  String.append "A" (String Ascii.zero "B").

(** The healthy machine on which no window can be created. *)
Definition noWindow : Scripted.State :=
  Scripted.withWindow nullptr Scripted.healthy.

(** The healthy machine whose driver refuses to create an instance. *)
Definition noInstance : Scripted.State :=
  Scripted.mkState true true 41 ["VK_KHR_surface"; "VK_KHR_xcb_surface"]
                   (-9, VK_NULL_HANDLE) [7] (VK_SUCCESS, 43) [] [] false.

(** * Properties *)

Section Facts.
Context {P : Type} `{Provider P}.

(** Symbolic execution of straight-line member functions: every
    operation of the world monad and every recorded collaborator call
    is unfolded as soon as it is applied, so that [cbn] runs a member
    function up to the next answer of the provider. *)
#[local] Arguments String.append : simpl never.
#[local] Arguments initVulkan : simpl never.
#[local] Arguments Z.eqb : simpl nomatch.
#[local] Arguments bind {P A B} m k /.
#[local] Arguments ret {P A} a /.
#[local] Arguments call {P} c /.
#[local] Arguments ask {P A} q /.
#[local] Arguments act {P A} f /.
#[local] Arguments this {P} /.
#[local] Arguments assign {P} f /.
#[local] Arguments getSlots {P} /.
#[local] Arguments setSlots {P} f /.
#[local] Arguments Logger_log {P} level format args /.
#[local] Arguments glfwInit {P _} /.
#[local] Arguments glfwVulkanSupported {P _} /.
#[local] Arguments glfwTerminate {P _} /.
#[local] Arguments glfwWindowHint {P _} hint value /.
#[local] Arguments glfwCreateWindow {P _} width height title /.
#[local] Arguments glfwGetRequiredInstanceExtensions {P _} /.
#[local] Arguments vkCreateInstance {P _} info /.
#[local] Arguments vkEnumeratePhysicalDevices {P _} instance count pPhysicalDevices /.
#[local] Arguments glfwCreateWindowSurface {P _} instance window /.
#[local] Arguments glfwSetWindowUserPointer {P} window /.
#[local] Arguments glfwGetWindowUserPointer {P} window /.
#[local] Arguments glfwSetWindowCloseCallback {P} window /.
#[local] Arguments glfwSetKeyCallback {P} window /.
#[local] Arguments glfwSetMouseButtonCallback {P} window /.
#[local] Arguments glfwWindowShouldClose {P _} window /.
#[local] Arguments glfwGetKeyName {P _} key scancode /.
#[local] Arguments vkDestroySurfaceKHR {P _} instance surface /.
#[local] Arguments vkDestroyInstance {P _} instance /.
#[local] Arguments glfwDestroyWindow {P _} window /.
#[local] Arguments set_mWindow {P} h /.
#[local] Arguments set_mApplicationName {P} n /.
#[local] Arguments set_mInstance {P} h /.
#[local] Arguments set_mSurface {P} h /.

Ltac run := cbn.

Ltac listEq := repeat rewrite <- app_assoc; cbn [app]; reflexivity.

(** C5: when the provider reports that the rendering API is not
    supported, [init] returns failure; the calls it makes are the
    provider initialisation, the support query, one provider shutdown
    and one log line, so exactly one shutdown call and no window
    creation call. *)
Theorem init_unsupported_api (width height : Z) (title : string)
    (s : World P) (p1 : P) :
  provInit (provider s) = (true, p1) ->
  provVulkanSupported p1 = false ->
  exists new,
    calls (snd (init width height title s)) = calls s ++ new /\
    fst (init width height title s) = false /\
    new = [GlfwInit; GlfwVulkanSupported; GlfwTerminate;
           LoggerLog 1 ("%s: Vulkan is not supported" ++ nl) [Str "init"]] /\
    List.length (filter isTerminate new) = 1%nat /\
    filter isCreateWindow new = [].
Proof.
  intros Hinit Hsup.
  eexists. unfold init. run. rewrite Hinit. cbn. rewrite Hsup. cbn.
  split; [listEq|]. repeat split.
Qed.

Lemma forEach_calls {A} (f : A -> Call) (l : list A) (s : World P) :
  forEach l (fun e s0 =>
               (tt, mkWorld (session s0) (provider s0) (slots s0)
                            (calls s0 ++ [f e]))) s =
  (tt, mkWorld (session s) (provider s) (slots s) (calls s ++ map f l)).
Proof.
  revert s. induction l as [|x l IH]; intros s; cbn.
  - unfold ret. rewrite app_nil_r. now destruct s.
  - unfold bind. rewrite IH. cbn. now rewrite <- app_assoc.
Qed.

Lemma filter_logs {A} (q : Call -> bool) (f : A -> Call) (l : list A) :
  (forall e, q (f e) = false) ->
  filter q (map f l) = [].
Proof.
  intros Hf. induction l as [|x l IH]; cbn; [reflexivity|].
  now rewrite Hf.
Qed.

(** [initVulkan] releases nothing, and writes no field but the instance
    and surface handles. *)
Lemma initVulkan_frame (s : World P) :
  exists mid,
    calls (snd (initVulkan s)) = calls s ++ mid /\
    filter isTeardown mid = [] /\
    filter isTerminate mid = [] /\
    mWindow (session (snd (initVulkan s))) = mWindow (session s) /\
    mApplicationName (session (snd (initVulkan s))) =
      mApplicationName (session s) /\
    slots (snd (initVulkan s)) = slots s.
Proof.
  unfold initVulkan. run.
  destruct (Z.of_nat _ =? 0); cbn.
  { eexists. split; [listEq|]. repeat split. }
  rewrite forEach_calls. cbn.
  destruct (provCreateInstance _ _ _) as [[r h] p1]; cbn.
  destruct (r =? VK_SUCCESS); cbn.
  2:{ eexists. split; [listEq|].
      repeat split; cbn; rewrite filter_app, filter_logs; reflexivity. }
  destruct (provEnumeratePhysicalDevices _ _ _ _) as [[n ds] p2]; cbn.
  destruct (n =? 0); cbn.
  { eexists. split; [listEq|].
    repeat split; cbn; rewrite filter_app, filter_logs; reflexivity. }
  destruct (provEnumeratePhysicalDevices _ _ _ _) as [[n2 ds2] p3]; cbn.
  destruct (provCreateWindowSurface _ _ _ _) as [[r2 h2] p4]; cbn.
  destruct (r2 =? VK_SUCCESS); cbn.
  - eexists. split; [listEq|].
    repeat split; cbn; rewrite filter_app, filter_logs; reflexivity.
  - eexists. split; [listEq|].
    repeat split; cbn; rewrite filter_app, filter_logs; reflexivity.
Qed.

(** C4: when the provider reports no required instance extension,
    [initVulkan] returns failure after the query and one log line; no
    instance-creation and no surface-creation call is made, and the
    fields of the session, the instance and surface handles among them,
    are what they were. *)
Theorem initVulkan_no_extensions (s : World P) :
  provRequiredInstanceExtensions (provider s) = [] ->
  fst (initVulkan s) = false /\
  session (snd (initVulkan s)) = session s /\
  exists new,
    calls (snd (initVulkan s)) = calls s ++ new /\
    new = [GlfwGetRequiredInstanceExtensions;
           LoggerLog 1 ("%s error: no Vulkan extensions found, need at least 'VK_KHR_surface'" ++ nl)
                     [Str "initVulkan"]] /\
    filter isCreateInstance new = [] /\
    filter isCreateSurface new = [].
Proof.
  intros Hext. unfold initVulkan. run. rewrite Hext. cbn.
  repeat split. eexists. split; [listEq|]. repeat split.
Qed.

(** C9: when the provider initialisation fails, or the rendering-API
    support check fails, [init] returns failure and every field of the
    session is what it was before the call; for a freshly constructed
    session the three handles are still null and the application name is
    still empty. *)
Theorem init_early_failure_keeps_fields (width height : Z) (title : string)
    (s : World P) :
  fst (provInit (provider s)) = false \/
  provVulkanSupported (snd (provInit (provider s))) = false ->
  fst (init width height title s) = false /\
  session (snd (init width height title s)) = session s /\
  (session s = newWindow ->
   mWindow (session (snd (init width height title s))) = nullptr /\
   mApplicationName (session (snd (init width height title s))) = "" /\
   mInstance (session (snd (init width height title s))) = VK_NULL_HANDLE /\
   mSurface (session (snd (init width height title s))) = VK_NULL_HANDLE).
Proof.
  intros Hfail.
  assert (Hkeep : fst (init width height title s) = false /\
                  session (snd (init width height title s)) = session s).
  { unfold init. run.
    destruct (provInit (provider s)) as [ok p1]; cbn in *.
    destruct ok; cbn; [|now split].
    destruct Hfail as [Hfail|Hfail]; [discriminate|].
    rewrite Hfail. cbn. now split. }
  destruct Hkeep as [Hres Hsess].
  split; [exact Hres|]. split; [exact Hsess|].
  intros Hnew. rewrite Hsess, Hnew. repeat split.
Qed.

(** A successful [init] leaves a non-null window handle in the session. *)
Lemma init_success_window (width height : Z) (title : string)
    (s s1 : World P) :
  init width height title s = (true, s1) ->
  mWindow (session s1) <> nullptr /\
  slots s1 = mkSlots true true true true.
Proof.
  unfold init. run.
  destruct (provInit (provider s)) as [ok p1]; cbn.
  destruct ok; cbn; [|discriminate].
  destruct (provVulkanSupported p1); cbn; [|discriminate].
  destruct (provCreateWindow _ _ _ _) as [h p2]; cbn.
  destruct (h =? nullptr) eqn:Eh; cbn; [discriminate|].
  match goal with |- context [initVulkan ?w] =>
    destruct (initVulkan_frame w) as (mid & _ & _ & _ & Hw & _ & Hs);
    destruct (initVulkan w) as [v s2] end.
  cbn in *. destruct v; cbn; [|discriminate].
  intros Heq. injection Heq as <-. cbn. split; [|reflexivity].
  rewrite Hw. intros E. rewrite E in Eh. discriminate.
Qed.

(** C3: after a successful [init], [cleanup] logs one line and then
    makes exactly four provider calls, in this order: destroy the
    surface, destroy the instance, destroy the window, shut the provider
    down, each on the handle the session holds. *)
Theorem cleanup_order (width height : Z) (title : string) (s s1 : World P) :
  init width height title s = (true, s1) ->
  mWindow (session s1) <> nullptr /\
  exists new,
    calls (snd (cleanup s1)) = calls s1 ++ new /\
    new = [LoggerLog 1 ("%s: Terminating Window" ++ nl) [Str "cleanup"];
           VkDestroySurfaceKHR (mInstance (session s1)) (mSurface (session s1));
           VkDestroyInstance (mInstance (session s1));
           GlfwDestroyWindow (mWindow (session s1));
           GlfwTerminate] /\
    providerCalls new =
      [VkDestroySurfaceKHR (mInstance (session s1)) (mSurface (session s1));
       VkDestroyInstance (mInstance (session s1));
       GlfwDestroyWindow (mWindow (session s1));
       GlfwTerminate].
Proof.
  intros Hinit. split.
  - exact (proj1 (init_success_window _ _ _ _ _ Hinit)).
  - eexists. unfold cleanup. run. split; [listEq|]. split; reflexivity.
Qed.

(** C6: a key event whose action is none of press, release and repeat
    is logged with the action name "unknown"; a mouse-button event
    whose button is none of left, middle and right is logged with the
    button name "unknown", and one whose action is neither press nor
    release with the action name "unknown"; in every such case the
    handler still emits its line.  The recognised values keep their own
    labels. *)
Theorem unknown_values_are_labelled :
  (forall (key scancode action mods : Z) (s : World P),
      action <> GLFW_PRESS -> action <> GLFW_RELEASE -> action <> GLFW_REPEAT ->
      calls (snd (handleKeyEvents key scancode action mods s)) =
      calls s ++
        [GlfwGetKeyName key 0;
         LoggerLog 1 ("%s: key %s (key %i, scancode %i) %s" ++ nl)
                   [Str "handleKeyEvents";
                    CStr (provGetKeyName key 0 (provider s));
                    Int key; Int scancode; Str "unknown"]]) /\
  (forall (button action mods : Z) (s : World P),
      button <> GLFW_MOUSE_BUTTON_LEFT ->
      button <> GLFW_MOUSE_BUTTON_MIDDLE ->
      button <> GLFW_MOUSE_BUTTON_RIGHT ->
      calls (snd (handleMouseButtonEvents button action mods s)) =
      calls s ++
        [LoggerLog 1 ("%s: %s mouse button (%i) %s" ++ nl)
                   [Str "handleMouseButtonEvents"; Str "unknown"; Int button;
                    Str (mouseActionName action)]]) /\
  (forall (button action mods : Z) (s : World P),
      action <> GLFW_PRESS -> action <> GLFW_RELEASE ->
      calls (snd (handleMouseButtonEvents button action mods s)) =
      calls s ++
        [LoggerLog 1 ("%s: %s mouse button (%i) %s" ++ nl)
                   [Str "handleMouseButtonEvents"; Str (mouseButtonName button);
                    Int button; Str "unknown"]]) /\
  (forall (button action mods : Z) (s : World P),
      button <> GLFW_MOUSE_BUTTON_LEFT ->
      button <> GLFW_MOUSE_BUTTON_MIDDLE ->
      button <> GLFW_MOUSE_BUTTON_RIGHT ->
      action <> GLFW_PRESS -> action <> GLFW_RELEASE ->
      calls (snd (handleMouseButtonEvents button action mods s)) =
      calls s ++
        [LoggerLog 1 ("%s: %s mouse button (%i) %s" ++ nl)
                   [Str "handleMouseButtonEvents"; Str "unknown"; Int button;
                    Str "unknown"]]) /\
  (keyActionName GLFW_PRESS = "pressed" /\
   keyActionName GLFW_RELEASE = "released" /\
   keyActionName GLFW_REPEAT = "repeated" /\
   mouseActionName GLFW_PRESS = "pressed" /\
   mouseActionName GLFW_RELEASE = "released" /\
   mouseButtonName GLFW_MOUSE_BUTTON_LEFT = "left" /\
   mouseButtonName GLFW_MOUSE_BUTTON_MIDDLE = "middle" /\
   mouseButtonName GLFW_MOUSE_BUTTON_RIGHT = "right").
Proof.
  assert (Haction : forall action,
             action <> GLFW_PRESS -> action <> GLFW_RELEASE ->
             mouseActionName action = "unknown").
  { intros action Hp Hr. unfold mouseActionName.
    destruct (Z.eqb_spec action GLFW_PRESS); [contradiction|].
    destruct (Z.eqb_spec action GLFW_RELEASE); [contradiction|].
    reflexivity. }
  assert (Hbutton : forall button,
             button <> GLFW_MOUSE_BUTTON_LEFT ->
             button <> GLFW_MOUSE_BUTTON_MIDDLE ->
             button <> GLFW_MOUSE_BUTTON_RIGHT ->
             mouseButtonName button = "unknown").
  { intros button Hl Hm Hr. unfold mouseButtonName.
    destruct (Z.eqb_spec button GLFW_MOUSE_BUTTON_LEFT); [contradiction|].
    destruct (Z.eqb_spec button GLFW_MOUSE_BUTTON_MIDDLE); [contradiction|].
    destruct (Z.eqb_spec button GLFW_MOUSE_BUTTON_RIGHT); [contradiction|].
    reflexivity. }
  split; [|split; [|split; [|split]]].
  - intros key scancode action mods s Hp Hr Hq.
    unfold handleKeyEvents, keyActionName. run.
    destruct (Z.eqb_spec action GLFW_PRESS); [contradiction|].
    destruct (Z.eqb_spec action GLFW_RELEASE); [contradiction|].
    destruct (Z.eqb_spec action GLFW_REPEAT); [contradiction|].
    listEq.
  - intros button action mods s Hl Hm Hr.
    unfold handleMouseButtonEvents. run.
    now rewrite (Hbutton button Hl Hm Hr).
  - intros button action mods s Hp Hr.
    unfold handleMouseButtonEvents. run.
    now rewrite (Haction action Hp Hr).
  - intros button action mods s Hl Hm Hr Hp Hq.
    unfold handleMouseButtonEvents. run.
    now rewrite (Hbutton button Hl Hm Hr), (Haction action Hp Hq).
  - repeat split.
Qed.

(** C8: whatever its arguments, each of the three event handlers leaves
    the four fields of the session, the state of the provider (and with
    it the close flag) and the callback slots as they were; all it adds
    to the world is one log line, preceded for a key event by the
    key-name query. *)
Theorem handlers_only_log :
  (forall s : World P,
      session (snd (handleWindowCloseEvents s)) = session s /\
      provider (snd (handleWindowCloseEvents s)) = provider s /\
      slots (snd (handleWindowCloseEvents s)) = slots s /\
      closeFlag (snd (handleWindowCloseEvents s)) = closeFlag s /\
      exists format args,
        calls (snd (handleWindowCloseEvents s)) =
        calls s ++ [LoggerLog 1 format args]) /\
  (forall (key scancode action mods : Z) (s : World P),
      session (snd (handleKeyEvents key scancode action mods s)) = session s /\
      provider (snd (handleKeyEvents key scancode action mods s)) = provider s /\
      slots (snd (handleKeyEvents key scancode action mods s)) = slots s /\
      closeFlag (snd (handleKeyEvents key scancode action mods s)) =
        closeFlag s /\
      exists format args,
        calls (snd (handleKeyEvents key scancode action mods s)) =
        calls s ++ [GlfwGetKeyName key 0; LoggerLog 1 format args]) /\
  (forall (button action mods : Z) (s : World P),
      session (snd (handleMouseButtonEvents button action mods s)) = session s /\
      provider (snd (handleMouseButtonEvents button action mods s)) =
        provider s /\
      slots (snd (handleMouseButtonEvents button action mods s)) = slots s /\
      closeFlag (snd (handleMouseButtonEvents button action mods s)) =
        closeFlag s /\
      exists format args,
        calls (snd (handleMouseButtonEvents button action mods s)) =
        calls s ++ [LoggerLog 1 format args]).
Proof.
  split; [|split].
  - intros s. unfold handleWindowCloseEvents, closeFlag. run.
    repeat split. eauto.
  - intros key scancode action mods s.
    unfold handleKeyEvents, closeFlag. run.
    repeat split. do 2 eexists. listEq.
  - intros button action mods s.
    unfold handleMouseButtonEvents, closeFlag. run.
    repeat split. eauto.
Qed.

(** C10: the key-name argument of the line logged by [handleKeyEvents]
    is the result of the provider's key-name lookup as it is; when the
    lookup yields the null pointer the argument is that null pointer and
    not the label "unknown", which only the action name falls back to. *)
Theorem key_name_is_logged_as_returned
    (key scancode action mods : Z) (s : World P) :
  calls (snd (handleKeyEvents key scancode action mods s)) =
  calls s ++
    [GlfwGetKeyName key 0;
     LoggerLog 1 ("%s: key %s (key %i, scancode %i) %s" ++ nl)
               [Str "handleKeyEvents";
                CStr (provGetKeyName key 0 (provider s));
                Int key; Int scancode; Str (keyActionName action)]] /\
  (provGetKeyName key 0 (provider s) = None ->
   CStr (provGetKeyName key 0 (provider s)) = CStr None /\
   CStr (provGetKeyName key 0 (provider s)) <> Str "unknown").
Proof.
  split.
  - unfold handleKeyEvents. run. listEq.
  - intros ->. split; [reflexivity|discriminate].
Qed.

(** *** The event loop *)

Lemma deliver_frame (e : Event) (s : World P) :
  deliver e s =
  (tt, mkWorld (session s) (provider s) (slots s)
               (calls s ++ eventCalls (slots s) (provider s) e)).
Proof.
  unfold deliver, eventCalls, handleWindowCloseEvents, handleKeyEvents,
    handleMouseButtonEvents.
  run. destruct s as [w p c t]; cbn.
  destruct c as [pointer onClose onKey onMouse]; cbn.
  destruct e; cbn;
    match goal with |- context [if ?b then _ else _] => destruct b end;
    cbn; rewrite ?app_nil_r; try reflexivity;
    destruct pointer; cbn; f_equal; f_equal; listEq.
Qed.

Lemma forEach_deliver (l : list Event) (s : World P) :
  forEach l deliver s =
  (tt, mkWorld (session s) (provider s) (slots s)
               (calls s ++ flat_map (eventCalls (slots s) (provider s)) l)).
Proof.
  revert s. induction l as [|e l IH]; intros s; cbn [forEach flat_map].
  - unfold ret. rewrite app_nil_r. now destruct s.
  - unfold bind. rewrite deliver_frame, IH. cbn. now rewrite <- app_assoc.
Qed.

(** A turn of the loop tests the flag, polls once, and has every event
    of that poll dispatched. *)
Lemma pollOnce_eq (s : World P) :
  pollOnce s =
  mkWorld (session s) (snd (provPollEvents (provider s))) (slots s)
          (calls s ++
           [GlfwWindowShouldClose (mWindow (session s)); GlfwPollEvents] ++
           flat_map (eventCalls (slots s) (snd (provPollEvents (provider s))))
                    (fst (provPollEvents (provider s)))).
Proof.
  unfold pollOnce, glfwPollEvents. run.
  destruct (provPollEvents (provider s)) as [evs p1]; cbn.
  rewrite forEach_deliver. cbn. f_equal. listEq.
Qed.

Lemma mainLoop_eq (fuel : nat) (s : World P) :
  mainLoop fuel s =
  if closeFlag s
  then Some (tt, snd (glfwWindowShouldClose (mWindow (session s)) s))
  else match fuel with
       | O => None
       | S fuel' => mainLoop fuel' (pollOnce s)
       end.
Proof.
  unfold closeFlag, pollOnce.
  destruct fuel; cbn; run;
    destruct (provWindowShouldClose _ _); reflexivity.
Qed.

Lemma mainLoop_returns (k : nat) :
  forall (s : World P),
    (forall j, (j < k)%nat -> closeFlag (afterPolls j s) = false) ->
    closeFlag (afterPolls k s) = true ->
    forall fuel, (k <= fuel)%nat ->
      mainLoop fuel s =
      Some (tt, snd (glfwWindowShouldClose
                       (mWindow (session (afterPolls k s)))
                       (afterPolls k s))).
Proof.
  induction k as [|k IH]; intros s Hbefore Hat fuel Hfuel;
    rewrite mainLoop_eq.
  - cbn in Hat. now rewrite Hat.
  - assert (Hnow : closeFlag s = false) by (apply (Hbefore O); lia).
    rewrite Hnow.
    destruct fuel as [|fuel]; [lia|].
    apply IH; [|exact Hat|lia].
    intros j Hj. apply (Hbefore (S j)). lia.
Qed.

Lemma mainLoop_keeps_polling (fuel : nat) :
  forall (s : World P),
    (forall j, (j <= fuel)%nat -> closeFlag (afterPolls j s) = false) ->
    mainLoop fuel s = None.
Proof.
  induction fuel as [|fuel IH]; intros s Hopen; rewrite mainLoop_eq;
    assert (Hnow : closeFlag s = false) by (apply (Hopen O); lia);
    rewrite Hnow; [reflexivity|].
  apply IH. intros j Hj. apply (Hopen (S j)). lia.
Qed.

Lemma mainLoop_returned (fuel : nat) :
  forall (s s' : World P),
    mainLoop fuel s = Some (tt, s') ->
    exists k,
      (k <= fuel)%nat /\
      (forall j, (j < k)%nat -> closeFlag (afterPolls j s) = false) /\
      closeFlag (afterPolls k s) = true /\
      s' = snd (glfwWindowShouldClose (mWindow (session (afterPolls k s)))
                                      (afterPolls k s)).
Proof.
  induction fuel as [|fuel IH]; intros s s'; rewrite mainLoop_eq;
    destruct (closeFlag s) eqn:Hflag; intros Hret.
  - exists O. injection Hret as <-.
    repeat split; trivial; try (intros; lia).
  - discriminate.
  - exists O. injection Hret as <-.
    repeat split; trivial; try (intros; lia).
  - destruct (IH _ _ Hret) as (k & Hk & Hbefore & Hat & ->).
    exists (S k). repeat split; trivial; [lia|].
    intros [|j] Hj; [exact Hflag|]. apply Hbefore. lia.
Qed.

(** C7: [mainLoop] returns exactly when the close flag is found set.
    If the flag is first set after [k] polls, the loop returns after
    exactly those [k] polls (given fuel for them), the last of which has
    dispatched every event pending at it; as long as the flag stays
    clear the loop has not returned; and whenever it has returned, it
    did so at the first poll count at which the flag was set. *)
Theorem mainLoop_returns_at_close :
  (forall (k : nat) (s : World P),
      (forall j, (j < k)%nat -> closeFlag (afterPolls j s) = false) ->
      closeFlag (afterPolls k s) = true ->
      forall fuel, (k <= fuel)%nat ->
        mainLoop fuel s =
        Some (tt, snd (glfwWindowShouldClose
                         (mWindow (session (afterPolls k s)))
                         (afterPolls k s)))) /\
  (forall (fuel : nat) (s : World P),
      (forall j, (j <= fuel)%nat -> closeFlag (afterPolls j s) = false) ->
      mainLoop fuel s = None) /\
  (forall (fuel : nat) (s s' : World P),
      mainLoop fuel s = Some (tt, s') ->
      exists k,
        (k <= fuel)%nat /\
        (forall j, (j < k)%nat -> closeFlag (afterPolls j s) = false) /\
        closeFlag (afterPolls k s) = true /\
        s' = snd (glfwWindowShouldClose (mWindow (session (afterPolls k s)))
                                        (afterPolls k s))) /\
  (forall (k : nat) (s : World P),
      afterPolls (S k) s = afterPolls k (pollOnce s) /\
      pollOnce s =
      mkWorld (session s) (snd (provPollEvents (provider s))) (slots s)
              (calls s ++
               [GlfwWindowShouldClose (mWindow (session s)); GlfwPollEvents] ++
               flat_map
                 (eventCalls (slots s) (snd (provPollEvents (provider s))))
                 (fst (provPollEvents (provider s))))).
Proof.
  split; [|split; [|split]].
  - intros k. apply mainLoop_returns.
  - intros fuel. apply mainLoop_keeps_polling.
  - intros fuel. apply mainLoop_returned.
  - intros k s. split; [reflexivity|apply pollOnce_eq].
Qed.

(** *** Failure paths of [init] *)

(** C1, as the code has it.  Each of the four causes makes [init]
    return failure after a diagnostic: a failing provider
    initialisation (no shutdown call, session untouched), an
    unsupported API (one shutdown, session untouched), a null window
    (one shutdown, window handle null, instance and surface handles
    untouched), and a failing [initVulkan] on the world the window
    creation leaves (the calls of [initVulkan], none of them a
    shutdown, then the log line and one shutdown).  Conversely,
    whenever [init] returns failure it has logged a diagnostic, has
    shut the provider down exactly once unless the provider
    initialisation itself failed, and has taken one of these four
    paths. *)
Theorem init_failure_paths (width height : Z) (title : string) (s : World P) :
  (fst (provInit (provider s)) = false ->
   fst (init width height title s) = false /\
   session (snd (init width height title s)) = session s /\
   calls (snd (init width height title s)) =
     calls s ++
     [GlfwInit; LoggerLog 1 ("%s: glfwInit() error" ++ nl) [Str "init"]]) /\
  (forall p1,
      provInit (provider s) = (true, p1) ->
      provVulkanSupported p1 = false ->
      fst (init width height title s) = false /\
      session (snd (init width height title s)) = session s /\
      calls (snd (init width height title s)) =
        calls s ++
        [GlfwInit; GlfwVulkanSupported; GlfwTerminate;
         LoggerLog 1 ("%s: Vulkan is not supported" ++ nl) [Str "init"]]) /\
  (forall p1 p2,
      provInit (provider s) = (true, p1) ->
      provVulkanSupported p1 = true ->
      provCreateWindow
        (int_of_unsigned width) (int_of_unsigned height) (c_str title)
        (provWindowHint GLFW_CLIENT_API GLFW_NO_API
           (provWindowHint GLFW_RESIZABLE GLFW_FALSE p1)) = (nullptr, p2) ->
      fst (init width height title s) = false /\
      session (snd (init width height title s)) =
        mkWindow nullptr title (mInstance (session s)) (mSurface (session s)) /\
      calls (snd (init width height title s)) =
        calls s ++ windowCalls width height title ++
        [LoggerLog 1 ("%s: Could not create window" ++ nl) [Str "init"];
         GlfwTerminate]) /\
  (forall p1 h p2,
      provInit (provider s) = (true, p1) ->
      provVulkanSupported p1 = true ->
      provCreateWindow
        (int_of_unsigned width) (int_of_unsigned height) (c_str title)
        (provWindowHint GLFW_CLIENT_API GLFW_NO_API
           (provWindowHint GLFW_RESIZABLE GLFW_FALSE p1)) = (h, p2) ->
      h <> nullptr ->
      fst (initVulkan (enteringVulkan width height title h p2 s)) = false ->
      fst (init width height title s) = false /\
      calls (snd (init width height title s)) =
        calls (snd (initVulkan (enteringVulkan width height title h p2 s))) ++
        [LoggerLog 1 ("%s: Could not init Vulkan" ++ nl) [Str "init"];
         GlfwTerminate] /\
      exists mid,
        calls (snd (initVulkan (enteringVulkan width height title h p2 s))) =
          calls s ++ windowCalls width height title ++ mid /\
        filter isTerminate mid = []) /\
  (fst (init width height title s) = false ->
   exists new,
     calls (snd (init width height title s)) = calls s ++ new /\
     existsb isLog new = true /\
     filter isTerminate new =
       (if fst (provInit (provider s)) then [GlfwTerminate] else []) /\
     ((fst (provInit (provider s)) = false /\
       new = [GlfwInit;
              LoggerLog 1 ("%s: glfwInit() error" ++ nl) [Str "init"]] /\
       session (snd (init width height title s)) = session s)
      \/
      (provVulkanSupported (snd (provInit (provider s))) = false /\
       new = [GlfwInit; GlfwVulkanSupported; GlfwTerminate;
              LoggerLog 1 ("%s: Vulkan is not supported" ++ nl) [Str "init"]] /\
       session (snd (init width height title s)) = session s)
      \/
      (new = [GlfwInit; GlfwVulkanSupported;
              GlfwWindowHint GLFW_RESIZABLE GLFW_FALSE;
              GlfwWindowHint GLFW_CLIENT_API GLFW_NO_API;
              GlfwCreateWindow (int_of_unsigned width) (int_of_unsigned height)
                               (c_str title);
              LoggerLog 1 ("%s: Could not create window" ++ nl) [Str "init"];
              GlfwTerminate] /\
       session (snd (init width height title s)) =
         mkWindow nullptr title (mInstance (session s)) (mSurface (session s)))
      \/
      (exists mid,
          new = [GlfwInit; GlfwVulkanSupported;
                 GlfwWindowHint GLFW_RESIZABLE GLFW_FALSE;
                 GlfwWindowHint GLFW_CLIENT_API GLFW_NO_API;
                 GlfwCreateWindow (int_of_unsigned width)
                                  (int_of_unsigned height) (c_str title)] ++
                mid ++
                [LoggerLog 1 ("%s: Could not init Vulkan" ++ nl) [Str "init"];
                 GlfwTerminate] /\
          filter isTerminate mid = [] /\
          mApplicationName (session (snd (init width height title s))) = title))).
Proof.
  split; [|split; [|split; [|split]]].
  - unfold init. run.
    destruct (provInit (provider s)) as [ok p1]; cbn.
    intros ->. cbn. split; [reflexivity|]. split; [reflexivity|]. listEq.
  - intros p1 Hinit Hsup. unfold init. run.
    rewrite Hinit. cbn. rewrite Hsup. cbn.
    split; [reflexivity|]. split; [reflexivity|]. listEq.
  - intros p1 p2 Hinit Hsup Hwin. unfold init, windowCalls. run.
    rewrite Hinit. cbn. rewrite Hsup. cbn. rewrite Hwin. cbn.
    split; [reflexivity|]. split; [reflexivity|]. listEq.
  - intros p1 h p2 Hinit Hsup Hwin Hh Hvulkan.
    apply Z.eqb_neq in Hh.
    destruct (initVulkan_frame (enteringVulkan width height title h p2 s))
      as (mid & Hmid & _ & Hterm & _).
    unfold init. run.
    rewrite Hinit. cbn. rewrite Hsup. cbn. rewrite Hwin. cbn.
    rewrite Hh. cbn.
    match goal with |- context [initVulkan ?w] =>
      replace w with (enteringVulkan width height title h p2 s)
        by (unfold enteringVulkan, windowCalls; f_equal; listEq) end.
    destruct (initVulkan (enteringVulkan width height title h p2 s))
      as [v s2].
    cbn in Hvulkan, Hmid |- *. subst v. cbn.
    split; [reflexivity|]. split; [listEq|].
    exists mid. split; [|exact Hterm].
    rewrite Hmid. unfold enteringVulkan. cbn [calls]. listEq.
  - unfold init. run.
    destruct (provInit (provider s)) as [ok p1]; cbn.
    destruct ok; cbn.
    2:{ intros _. eexists. split; [listEq|]. repeat split.
        left. repeat split. }
    destruct (provVulkanSupported p1) eqn:Hsup; cbn.
    2:{ intros _. eexists. split; [listEq|]. repeat split.
        right; left. repeat split. }
    destruct (provCreateWindow _ _ _ _) as [h p2]; cbn.
    destruct (Z.eqb_spec h nullptr) as [->|Hh]; cbn.
    { intros _. eexists. split; [listEq|]. repeat split.
      right; right; left. repeat split. }
    match goal with |- context [initVulkan ?w] =>
      destruct (initVulkan_frame w)
        as (mid & Hcalls & _ & Hterm & _ & Hname & _);
      destruct (initVulkan w) as [v s2] end.
    cbn in *. destruct v; cbn; [discriminate|].
    intros _. rewrite Hcalls.
    exists ([GlfwInit; GlfwVulkanSupported;
             GlfwWindowHint GLFW_RESIZABLE GLFW_FALSE;
             GlfwWindowHint GLFW_CLIENT_API GLFW_NO_API;
             GlfwCreateWindow (int_of_unsigned width) (int_of_unsigned height)
                              (c_str title)] ++
            mid ++
            [LoggerLog 1 ("%s: Could not init Vulkan" ++ nl) [Str "init"];
             GlfwTerminate]).
    split; [listEq|]. split; [|split].
    + cbn. rewrite existsb_app. cbn. apply orb_true_r.
    + cbn. rewrite filter_app, Hterm. reflexivity.
    + right; right; right. exists mid. repeat split; assumption.
Qed.

(** *** Device enumeration in [initVulkan] *)

(** C2, as the code has it: once the instance exists, [initVulkan] asks
    for the number of physical devices.  A count of zero is logged as
    "No Vulkan capable GPU found" and makes [initVulkan] return failure
    before any surface is created.  With a non-zero count the devices
    are enumerated into a local array, the count is logged, and the
    result of [initVulkan] is that of the surface creation; in both
    cases the session keeps the instance handle (and the surface
    handle), never a device. *)
Theorem initVulkan_device_enumeration
    (s : World P) (h : Handle) (p1 p2 : P) (n : Z) (ds : list Handle) :
  provRequiredInstanceExtensions (provider s) <> [] ->
  provCreateInstance
    (mCreateInfo (session s) (provRequiredInstanceExtensions (provider s)))
    (mInstance (session s)) (provider s) = (VK_SUCCESS, h, p1) ->
  provEnumeratePhysicalDevices h 0 None p1 = (n, ds, p2) ->
  (n = 0 ->
   fst (initVulkan s) = false /\
   session (snd (initVulkan s)) =
     mkWindow (mWindow (session s)) (mApplicationName (session s)) h
              (mSurface (session s)) /\
   exists before,
     calls (snd (initVulkan s)) =
       calls s ++ before ++
       [VkEnumeratePhysicalDevices h 0 None;
        LoggerLog 1 ("%s: No Vulkan capable GPU found" ++ nl)
                  [Str "initVulkan"]] /\
     filter isCreateSurface before = []) /\
  (n <> 0 ->
   forall (n2 : Z) (ds2 : list Handle) (p3 : P)
          (r : VkResult) (hs : Handle) (p4 : P),
     provEnumeratePhysicalDevices
       h n (Some (repeat VK_NULL_HANDLE (Z.to_nat n))) p2 = (n2, ds2, p3) ->
     provCreateWindowSurface h (mWindow (session s)) (mSurface (session s)) p3
       = (r, hs, p4) ->
     fst (initVulkan s) = (r =? VK_SUCCESS) /\
     session (snd (initVulkan s)) =
       mkWindow (mWindow (session s)) (mApplicationName (session s)) h hs /\
     exists before after,
       calls (snd (initVulkan s)) =
         calls s ++ before ++
         [VkEnumeratePhysicalDevices h 0 None;
          VkEnumeratePhysicalDevices
            h n (Some (repeat VK_NULL_HANDLE (Z.to_nat n)));
          LoggerLog 1 ("%s: Found %u physical device(s)" ++ nl)
                    [Str "initVulkan"; UInt n2];
          GlfwCreateWindowSurface h (mWindow (session s))] ++ after).
Proof.
  intros Hext Hinst Henum.
  assert (Hcount :
            (Z.of_nat (List.length (provRequiredInstanceExtensions (provider s)))
             =? 0) = false).
  { destruct (provRequiredInstanceExtensions (provider s));
      [contradiction|reflexivity]. }
  split.
  - intros ->. unfold initVulkan. run. rewrite Hcount. cbn.
    rewrite forEach_calls. cbn. rewrite Hinst. cbn. rewrite Henum. cbn.
    split; [reflexivity|]. split; [reflexivity|].
    exists ([GlfwGetRequiredInstanceExtensions;
             LoggerLog 1 ("%s: Found %u Vulkan extensions" ++ nl)
               [Str "initVulkan";
                UInt (Z.of_nat (List.length
                   (provRequiredInstanceExtensions (provider s))))]] ++
            map (fun e => LoggerLog 1 ("%s: %s" ++ nl)
                                    [Str "initVulkan"; Str e])
                (provRequiredInstanceExtensions (provider s)) ++
            [VkCreateInstance
               (mCreateInfo (session s)
                  (provRequiredInstanceExtensions (provider s)))]).
    split; [listEq|].
    cbn. rewrite filter_app, filter_logs; reflexivity.
  - intros Hn n2 ds2 p3 r hs p4 Henum2 Hsurf.
    apply Z.eqb_neq in Hn.
    unfold initVulkan. run. rewrite Hcount. cbn.
    rewrite forEach_calls. cbn. rewrite Hinst. cbn. rewrite Henum. cbn.
    rewrite Hn. cbn. rewrite Henum2. cbn. rewrite Hsurf. cbn.
    destruct (r =? VK_SUCCESS); cbn.
    + split; [reflexivity|]. split; [reflexivity|].
      exists ([GlfwGetRequiredInstanceExtensions;
               LoggerLog 1 ("%s: Found %u Vulkan extensions" ++ nl)
                 [Str "initVulkan";
                  UInt (Z.of_nat (List.length
                     (provRequiredInstanceExtensions (provider s))))]] ++
              map (fun e => LoggerLog 1 ("%s: %s" ++ nl)
                                      [Str "initVulkan"; Str e])
                  (provRequiredInstanceExtensions (provider s)) ++
              [VkCreateInstance
                 (mCreateInfo (session s)
                    (provRequiredInstanceExtensions (provider s)))]), [].
      listEq.
    + split; [reflexivity|]. split; [reflexivity|].
      exists ([GlfwGetRequiredInstanceExtensions;
               LoggerLog 1 ("%s: Found %u Vulkan extensions" ++ nl)
                 [Str "initVulkan";
                  UInt (Z.of_nat (List.length
                     (provRequiredInstanceExtensions (provider s))))]] ++
              map (fun e => LoggerLog 1 ("%s: %s" ++ nl)
                                      [Str "initVulkan"; Str e])
                  (provRequiredInstanceExtensions (provider s)) ++
              [VkCreateInstance
                 (mCreateInfo (session s)
                    (provRequiredInstanceExtensions (provider s)))]),
             [LoggerLog 1 ("%s: Could not create Vulkan surface" ++ nl)
                        [Str "initVulkan"]].
      listEq.
Qed.

(** * Further properties *)

(** *** Shared lemmas *)

Ltac sameCalls :=
  unfold windowCalls, instanceCalls, registrationCalls, cleanupCalls;
  repeat (progress (repeat rewrite <- app_assoc; cbn [app]));
  reflexivity.

Lemma filter_none (p q : Call -> bool) (l : list Call) :
  Forall (fun c => p c = true) l ->
  (forall c, p c = true -> q c = false) ->
  filter q l = [].
Proof.
  intros Hl Hpq. induction Hl as [|c l Hc _ IH]; cbn; [reflexivity|].
  now rewrite (Hpq c Hc).
Qed.

Lemma Forall_logs {A} (p : Call -> bool) (f : A -> Call) (l : list A) :
  (forall e, p (f e) = true) ->
  Forall (fun c => p c = true) (map f l).
Proof.
  intros Hf. induction l; cbn; constructor; auto.
Qed.

Lemma emplace_back_all {A} (l acc : list A) :
  fold_left emplace_back l acc = acc ++ l.
Proof.
  revert acc. induction l as [|x l IH]; intros acc; cbn.
  - now rewrite app_nil_r.
  - rewrite IH. unfold emplace_back. now rewrite <- app_assoc.
Qed.

(** What a successful [initVulkan] has been told by the provider, and
    the world it leaves. *)
Lemma initVulkan_succeeds (s : World P) :
  fst (initVulkan s) = true ->
  exists h p1 n ds p2 n2 ds2 p3 hs p4,
    provRequiredInstanceExtensions (provider s) <> [] /\
    provCreateInstance
      (mCreateInfo (session s) (provRequiredInstanceExtensions (provider s)))
      (mInstance (session s)) (provider s) = (VK_SUCCESS, h, p1) /\
    provEnumeratePhysicalDevices h 0 None p1 = (n, ds, p2) /\
    n <> 0 /\
    provEnumeratePhysicalDevices
      h n (Some (repeat VK_NULL_HANDLE (Z.to_nat n))) p2 = (n2, ds2, p3) /\
    provCreateWindowSurface h (mWindow (session s)) (mSurface (session s)) p3
      = (VK_SUCCESS, hs, p4) /\
    snd (initVulkan s) =
      mkWorld (mkWindow (mWindow (session s)) (mApplicationName (session s))
                        h hs)
              p4 (slots s)
              (calls s ++
               instanceCalls (session s)
                             (provRequiredInstanceExtensions (provider s)) ++
               [VkEnumeratePhysicalDevices h 0 None;
                VkEnumeratePhysicalDevices
                  h n (Some (repeat VK_NULL_HANDLE (Z.to_nat n)));
                LoggerLog 1 ("%s: Found %u physical device(s)" ++ nl)
                          [Str "initVulkan"; UInt n2];
                GlfwCreateWindowSurface h (mWindow (session s))]).
Proof.
  unfold initVulkan, instanceCalls. run.
  destruct (provRequiredInstanceExtensions (provider s)) as [|e exts];
    [discriminate|].
  change (Z.of_nat (List.length (e :: exts)) =? 0) with false.
  cbn [negb]. rewrite forEach_calls. cbn [session provider slots calls].
  destruct (provCreateInstance _ _ _) as [[r h] p1] eqn:Hinst; cbn.
  destruct (Z.eqb_spec r VK_SUCCESS) as [->|]; cbn; [|discriminate].
  destruct (provEnumeratePhysicalDevices _ _ _ _) as [[n ds] p2] eqn:Hfirst;
    cbn.
  destruct (Z.eqb_spec n 0) as [|Hn]; cbn; [discriminate|].
  destruct (provEnumeratePhysicalDevices h n _ p2) as [[n2 ds2] p3] eqn:Hsecond;
    cbn.
  destruct (provCreateWindowSurface _ _ _ _) as [[r2 hs] p4] eqn:Hsurf; cbn.
  destruct (Z.eqb_spec r2 VK_SUCCESS) as [->|]; cbn; [|discriminate].
  intros _. exists h, p1, n, ds, p2, n2, ds2, p3, hs, p4.
  split; [discriminate|]. split; [reflexivity|]. split; [exact Hfirst|].
  split; [exact Hn|]. split; [exact Hsecond|]. split; [exact Hsurf|].
  f_equal. listEq.
Qed.

(** Whatever its outcome, [initVulkan] makes no call but the extension
    query, log lines, the instance creation, device enumerations and
    the surface creation. *)
Lemma initVulkan_only_calls (s : World P) :
  exists mid,
    calls (snd (initVulkan s)) = calls s ++ mid /\
    Forall (fun c => isVulkanSetup c = true) mid.
Proof.
  assert (Hlogs : forall l : list string,
             Forall (fun c => isVulkanSetup c = true)
                    (map (fun e => LoggerLog 1 ("%s: %s" ++ nl)
                                             [Str "initVulkan"; Str e]) l))
    by (intros l; apply Forall_logs; reflexivity).
  unfold initVulkan. run.
  destruct (Z.of_nat _ =? 0); cbn.
  { eexists. split; [listEq|]. repeat constructor. }
  rewrite forEach_calls. cbn.
  destruct (provCreateInstance _ _ _) as [[r h] p1]; cbn.
  destruct (r =? VK_SUCCESS); cbn.
  2:{ eexists. split; [listEq|].
      do 2 (constructor; [reflexivity|]).
      apply Forall_app. split; [apply Hlogs|repeat constructor]. }
  destruct (provEnumeratePhysicalDevices _ _ _ _) as [[n ds] p2]; cbn.
  destruct (n =? 0); cbn.
  { eexists. split; [listEq|].
    do 2 (constructor; [reflexivity|]).
    apply Forall_app. split; [apply Hlogs|repeat constructor]. }
  destruct (provEnumeratePhysicalDevices _ _ _ _) as [[n2 ds2] p3]; cbn.
  destruct (provCreateWindowSurface _ _ _ _) as [[r2 h2] p4]; cbn.
  destruct (r2 =? VK_SUCCESS); cbn.
  - eexists. split; [listEq|].
    do 2 (constructor; [reflexivity|]).
    apply Forall_app. split; [apply Hlogs|repeat constructor].
  - eexists. split; [listEq|].
    do 2 (constructor; [reflexivity|]).
    apply Forall_app. split; [apply Hlogs|repeat constructor].
Qed.

(** The shape of a successful [init]: the window is created, then
    [initVulkan] succeeds on the world so obtained, then the callbacks
    are installed and the success line is logged. *)
Lemma init_succeeds (width height : Z) (title : string) (s s1 : World P) :
  init width height title s = (true, s1) ->
  exists s0 s2 : World P,
    mWindow (session s0) <> nullptr /\
    mApplicationName (session s0) = title /\
    mInstance (session s0) = mInstance (session s) /\
    mSurface (session s0) = mSurface (session s) /\
    calls s0 = calls s ++ windowCalls width height title /\
    initVulkan s0 = (true, s2) /\
    s1 = mkWorld (session s2) (provider s2) allSlots
                 (calls s2 ++ registrationCalls (mWindow (session s2)) ++
                  [LoggerLog 1 ("%s: Window successfully initialized" ++ nl)
                             [Str "init"]]).
Proof.
  unfold init, windowCalls, registrationCalls. run.
  destruct (provInit (provider s)) as [ok p1]; cbn.
  destruct ok; cbn; [|discriminate].
  destruct (provVulkanSupported p1); cbn; [|discriminate].
  destruct (provCreateWindow _ _ _ _) as [h p2]; cbn.
  destruct (Z.eqb_spec h nullptr) as [|Hh]; cbn; [discriminate|].
  match goal with |- context [initVulkan ?w] =>
    set (s0 := w); destruct (initVulkan s0) as [v s2] eqn:Hvulkan end.
  cbn. destruct v; cbn; [|discriminate].
  intros Heq. injection Heq as <-.
  exists s0, s2. subst s0. cbn.
  split; [exact Hh|]. split; [reflexivity|]. split; [reflexivity|].
  split; [reflexivity|]. split; [listEq|]. split; [exact Hvulkan|].
  unfold allSlots. f_equal. listEq.
Qed.

(** *** Properties of the handlers' calls *)

Lemma eventCalls_cases (c : WindowSlots) (p : P) (e : Event) :
  eventCalls c p e = [] \/
  (exists win, eventCalls c p e = [GlfwGetWindowUserPointer win]) \/
  (exists win format args,
      eventCalls c p e =
        [GlfwGetWindowUserPointer win;
         LoggerLog 1 format (Str (handlerName e) :: args)]) \/
  (exists win key format args,
      eventCalls c p e =
        [GlfwGetWindowUserPointer win; GlfwGetKeyName key 0;
         LoggerLog 1 format (Str (handlerName e) :: args)]).
Proof.
  unfold eventCalls, deliver, handleWindowCloseEvents, handleKeyEvents,
    handleMouseButtonEvents.
  destruct c as [pointer onClose onKey onMouse].
  destruct e; cbn;
    match goal with |- context [if ?b then _ else _] => destruct b end; cbn;
    try (left; reflexivity); destruct pointer; cbn; eauto 10.
Qed.


Lemma eventCalls_loop (c : WindowSlots) (p : P) (e : Event) :
  Forall (fun x => isLoopCall x = true) (eventCalls c p e) /\
  filter isFlagTest (eventCalls c p e) = [] /\
  filter isPoll (eventCalls c p e) = [].
Proof.
  destruct (eventCalls_cases c p e)
    as [-> | [(w & ->) | [(w & f & a & ->) | (w & k & f & a & ->)]]];
    repeat split; repeat constructor.
Qed.

Lemma flat_map_eventCalls_loop (c : WindowSlots) (p : P) (l : list Event) :
  Forall (fun x => isLoopCall x = true) (flat_map (eventCalls c p) l) /\
  filter isFlagTest (flat_map (eventCalls c p) l) = [] /\
  filter isPoll (flat_map (eventCalls c p) l) = [].
Proof.
  induction l as [|e l (IH1 & IH2 & IH3)]; cbn [flat_map].
  - repeat split. constructor.
  - destruct (eventCalls_loop c p e) as (H1 & H2 & H3).
    rewrite !filter_app, H2, H3, IH2, IH3.
    repeat split. apply Forall_app. now split.
Qed.

(** A returned [mainLoop] has left the session and the slots alone, has
    made loop calls only, and one more flag test than polls. *)
Lemma mainLoop_only_calls (fuel : nat) :
  forall s s' : World P,
    mainLoop fuel s = Some (tt, s') ->
    session s' = session s /\
    slots s' = slots s /\
    exists new,
      calls s' = calls s ++ new /\
      Forall (fun c => isLoopCall c = true) new /\
      List.length (filter isFlagTest new) =
        S (List.length (filter isPoll new)).
Proof.
  induction fuel as [|fuel IH]; intros s s'; rewrite mainLoop_eq;
    destruct (closeFlag s); intros Hret; try discriminate.
  - injection Hret as <-. cbn. repeat split.
    eexists. split; [reflexivity|]. split; [repeat constructor|reflexivity].
  - injection Hret as <-. cbn. repeat split.
    eexists. split; [reflexivity|]. split; [repeat constructor|reflexivity].
  - destruct (IH _ _ Hret) as (Hsess & Hslots & new & Hcalls & Hloop & Hcount).
    rewrite pollOnce_eq in Hsess, Hslots, Hcalls. cbn in Hsess, Hslots, Hcalls.
    destruct (flat_map_eventCalls_loop
                (slots s) (snd (provPollEvents (provider s)))
                (fst (provPollEvents (provider s)))) as (H1 & H2 & H3).
    split; [exact Hsess|]. split; [exact Hslots|].
    eexists. split; [rewrite Hcalls; rewrite <- app_assoc; reflexivity|].
    split.
    + apply Forall_app. split; [|exact Hloop].
      do 2 (constructor; [reflexivity|]). exact H1.
    + rewrite !filter_app. cbn. rewrite H2, H3. cbn. now rewrite Hcount.
Qed.

(** *** A successful [init] *)

(** X1: when [init] returns success the session holds a non-null
    window handle and the title as application name, the user pointer
    and the three callbacks are installed, nothing has been released,
    and the last call is the success line of the log. *)
Theorem init_success_state (width height : Z) (title : string)
    (s s1 : World P) :
  init width height title s = (true, s1) ->
  mWindow (session s1) <> nullptr /\
  mApplicationName (session s1) = title /\
  slots s1 = allSlots /\
  exists before,
    calls s1 =
      calls s ++ before ++
      [LoggerLog 1 ("%s: Window successfully initialized" ++ nl)
                 [Str "init"]] /\
    filter isTeardown before = [].
Proof.
  intros Hinit.
  destruct (init_succeeds _ _ _ _ _ Hinit)
    as (s0 & s2 & Hwin & Hname & _ & _ & Hcalls0 & Hvulkan & ->).
  destruct (initVulkan_frame s0)
    as (mid & Hmid & Hteardown & _ & Hw & Hn & _).
  rewrite Hvulkan in Hmid, Hw, Hn. cbn [snd] in Hmid, Hw, Hn.
  cbn [session slots calls].
  split; [now rewrite Hw|]. split; [now rewrite Hn|].
  split; [reflexivity|].
  exists (windowCalls width height title ++ mid ++
          registrationCalls (mWindow (session s2))).
  split.
  - rewrite Hmid, Hcalls0. listEq.
  - rewrite !filter_app, Hteardown. reflexivity.
Qed.

(** X2: [init] installs the user pointer and the callbacks only when it
    succeeds, then once each and in the order user pointer, close, key,
    mouse button, on the window it created; a failing [init] makes no
    such call. *)
Theorem init_installs_callbacks_on_success_only
    (width height : Z) (title : string) (s : World P) :
  exists new,
    calls (snd (init width height title s)) = calls s ++ new /\
    filter isRegistration new =
      if fst (init width height title s)
      then registrationCalls
             (mWindow (session (snd (init width height title s))))
      else [].
Proof.
  destruct (init width height title s) as [result s1] eqn:Hinit.
  destruct result; cbn [fst snd].
  - destruct (init_succeeds _ _ _ _ _ Hinit)
      as (s0 & s2 & _ & _ & _ & _ & Hcalls0 & Hvulkan & ->).
    destruct (initVulkan_only_calls s0) as (mid & Hmid & Hsetup).
    rewrite Hvulkan in Hmid. cbn [snd] in Hmid. cbn [session calls].
    eexists. split; [rewrite Hmid, Hcalls0; listEq|].
    change (filter isRegistration
              (windowCalls width height title ++ mid ++
               registrationCalls (mWindow (session s2)) ++
               [LoggerLog 1 ("%s: Window successfully initialized" ++ nl)
                          [Str "init"]]) =
            registrationCalls (mWindow (session s2))).
    rewrite !filter_app, (filter_none isVulkanSetup isRegistration mid Hsetup).
    + reflexivity.
    + intros [] Hc; try discriminate; reflexivity.
  - revert Hinit. unfold init. run.
    destruct (provInit (provider s)) as [ok p1]; cbn.
    destruct ok; cbn.
    2:{ intros Heq. injection Heq as <-. cbn.
        eexists. split; [listEq|reflexivity]. }
    destruct (provVulkanSupported p1); cbn.
    2:{ intros Heq. injection Heq as <-. cbn.
        eexists. split; [listEq|reflexivity]. }
    destruct (provCreateWindow _ _ _ _) as [h p2]; cbn.
    destruct (h =? nullptr); cbn.
    { intros Heq. injection Heq as <-. cbn.
      eexists. split; [listEq|reflexivity]. }
    match goal with |- context [initVulkan ?w] =>
      destruct (initVulkan_only_calls w) as (mid & Hmid & Hsetup);
      destruct (initVulkan w) as [v s2] end.
    cbn in *. destruct v; cbn; [discriminate|].
    intros Heq. injection Heq as <-. cbn. rewrite Hmid.
    exists (windowCalls width height title ++ mid ++
            [LoggerLog 1 ("%s: Could not init Vulkan" ++ nl) [Str "init"];
             GlfwTerminate]).
    split; [unfold windowCalls; listEq|].
    rewrite !filter_app, (filter_none isVulkanSetup isRegistration mid Hsetup).
    + reflexivity.
    + intros [] Hc; try discriminate; reflexivity.
Qed.

(** X3: over a whole run, [init] succeeding, [mainLoop] returning and
    [cleanup], the resources are acquired in the order provider,
    window, instance, surface and released in the reverse order, each
    release on the handle the matching creation produced; the run
    contains no other creation or destruction call.  The window title
    and the application name of the instance are the title as a C
    string, that is up to its first NUL byte. *)
Theorem lifecycle_is_reversed (width height : Z) (title : string)
    (fuel : nat) (s s1 s2 : World P) :
  init width height title s = (true, s1) ->
  mainLoop fuel s1 = Some (tt, s2) ->
  exists new info,
    calls (snd (cleanup s2)) = calls s ++ new /\
    pApplicationName (pApplicationInfo info) = c_str title /\
    filter isLifecycle new =
      [GlfwInit;
       GlfwCreateWindow (int_of_unsigned width) (int_of_unsigned height)
                        (c_str title);
       VkCreateInstance info;
       GlfwCreateWindowSurface (mInstance (session s1)) (mWindow (session s1));
       VkDestroySurfaceKHR (mInstance (session s1)) (mSurface (session s1));
       VkDestroyInstance (mInstance (session s1));
       GlfwDestroyWindow (mWindow (session s1));
       GlfwTerminate].
Proof.
  intros Hinit Hloop.
  destruct (init_succeeds _ _ _ _ _ Hinit)
    as (s0 & sv & _ & Hname & _ & _ & Hcalls0 & Hvulkan & Hs1).
  assert (Hok : fst (initVulkan s0) = true) by now rewrite Hvulkan.
  destruct (initVulkan_succeeds s0 Hok)
    as (h & p1 & n & ds & p2 & n2 & ds2 & p3 & hs & p4 &
        _ & _ & _ & _ & _ & _ & Hsv).
  rewrite Hvulkan in Hsv. cbn [snd] in Hsv. subst sv. cbn in Hs1.
  destruct (mainLoop_only_calls _ _ _ Hloop)
    as (Hsess & _ & loop & Hcalls2 & Hloopcalls & _).
  assert (Hsession : session s1 =
                     mkWindow (mWindow (session s0))
                              (mApplicationName (session s0)) h hs)
    by now rewrite Hs1.
  assert (Hcalls1 : calls s1 =
            calls s ++ windowCalls width height title ++
            instanceCalls (session s0)
                          (provRequiredInstanceExtensions (provider s0)) ++
            [VkEnumeratePhysicalDevices h 0 None;
             VkEnumeratePhysicalDevices
               h n (Some (repeat VK_NULL_HANDLE (Z.to_nat n)));
             LoggerLog 1 ("%s: Found %u physical device(s)" ++ nl)
                       [Str "initVulkan"; UInt n2];
             GlfwCreateWindowSurface h (mWindow (session s0))] ++
            registrationCalls (mWindow (session s0)) ++
            [LoggerLog 1 ("%s: Window successfully initialized" ++ nl)
                       [Str "init"]]).
  { rewrite Hs1. cbn [calls]. rewrite Hcalls0.
    unfold windowCalls, instanceCalls, registrationCalls. sameCalls. }
  exists (windowCalls width height title ++
          instanceCalls (session s0)
                        (provRequiredInstanceExtensions (provider s0)) ++
          [VkEnumeratePhysicalDevices h 0 None;
           VkEnumeratePhysicalDevices
             h n (Some (repeat VK_NULL_HANDLE (Z.to_nat n)));
           LoggerLog 1 ("%s: Found %u physical device(s)" ++ nl)
                     [Str "initVulkan"; UInt n2];
           GlfwCreateWindowSurface h (mWindow (session s0))] ++
          registrationCalls (mWindow (session s0)) ++
          [LoggerLog 1 ("%s: Window successfully initialized" ++ nl)
                     [Str "init"]] ++
          loop ++ cleanupCalls (session s1)).
  exists (mCreateInfo (session s0)
                      (provRequiredInstanceExtensions (provider s0))).
  split; [|split].
  - unfold cleanup. run. rewrite Hsess, Hcalls2, Hcalls1.
    unfold cleanupCalls. sameCalls.
  - cbn. now rewrite Hname.
  - rewrite !filter_app.
    rewrite (filter_none isLoopCall isLifecycle loop Hloopcalls)
      by (intros [] Hc; try discriminate; reflexivity).
    unfold instanceCalls. rewrite !filter_app, filter_logs by reflexivity.
    rewrite Hsession. reflexivity.
Qed.

(** *** [initVulkan] *)

(** X4: when the provider reports extensions but the instance creation
    returns an error code, [initVulkan] returns failure right after
    logging that code: no device is enumerated and no surface is
    created; the instance field holds whatever the provider wrote
    through the output pointer and the other fields are untouched. *)
Theorem initVulkan_instance_failure
    (s : World P) (r : VkResult) (h : Handle) (p1 : P) :
  provRequiredInstanceExtensions (provider s) <> [] ->
  provCreateInstance
    (mCreateInfo (session s) (provRequiredInstanceExtensions (provider s)))
    (mInstance (session s)) (provider s) = (r, h, p1) ->
  r <> VK_SUCCESS ->
  fst (initVulkan s) = false /\
  session (snd (initVulkan s)) =
    mkWindow (mWindow (session s)) (mApplicationName (session s)) h
             (mSurface (session s)) /\
  exists new,
    calls (snd (initVulkan s)) = calls s ++ new /\
    new = instanceCalls (session s)
                        (provRequiredInstanceExtensions (provider s)) ++
          [LoggerLog 1 ("%s: Could not create Vulkan instance (%i)" ++ nl)
                     [Str "initVulkan"; Int r]] /\
    filter isEnumerate new = [] /\
    filter isCreateSurface new = [].
Proof.
  intros Hext Hinst Hr.
  assert (Hcount :
            (Z.of_nat (List.length (provRequiredInstanceExtensions (provider s)))
             =? 0) = false).
  { destruct (provRequiredInstanceExtensions (provider s));
      [contradiction|reflexivity]. }
  apply Z.eqb_neq in Hr.
  unfold initVulkan. run. rewrite Hcount. cbn.
  rewrite forEach_calls. cbn. rewrite Hinst. cbn. rewrite Hr. cbn.
  split; [reflexivity|]. split; [reflexivity|].
  eexists. split; [|split; [reflexivity|]].
  - sameCalls.
  - unfold instanceCalls. cbn [app filter isEnumerate isCreateSurface].
    rewrite !filter_app, !filter_logs by reflexivity. split; reflexivity.
Qed.

(** X5: whenever the provider reports at least one extension,
    [initVulkan] logs their number and each name in the order reported
    and then creates the instance from a descriptor that names those
    extensions in the same order followed by the portability
    enumeration extension, counts one more than reported, sets the
    portability flag, enables no layer and carries the application name
    of the session as a C string, that is up to its first NUL byte. *)
Theorem initVulkan_instance_descriptor (s : World P) :
  provRequiredInstanceExtensions (provider s) <> [] ->
  exists info after,
    calls (snd (initVulkan s)) =
      calls s ++
      [GlfwGetRequiredInstanceExtensions;
       LoggerLog 1 ("%s: Found %u Vulkan extensions" ++ nl)
                 [Str "initVulkan";
                  UInt (Z.of_nat (List.length
                          (provRequiredInstanceExtensions (provider s))))]] ++
      map (fun e => LoggerLog 1 ("%s: %s" ++ nl) [Str "initVulkan"; Str e])
          (provRequiredInstanceExtensions (provider s)) ++
      VkCreateInstance info :: after /\
    ppEnabledExtensionNames info =
      provRequiredInstanceExtensions (provider s) ++
      [VK_KHR_PORTABILITY_ENUMERATION_EXTENSION_NAME] /\
    enabledExtensionCount info =
      uint32 (Z.of_nat (List.length
                (provRequiredInstanceExtensions (provider s))) + 1) /\
    flags info = VK_INSTANCE_CREATE_ENUMERATE_PORTABILITY_BIT_KHR /\
    enabledLayerCount info = 0 /\
    pApplicationName (pApplicationInfo info) =
      c_str (mApplicationName (session s)).
Proof.
  intros Hext.
  assert (Hcount :
            (Z.of_nat (List.length (provRequiredInstanceExtensions (provider s)))
             =? 0) = false).
  { destruct (provRequiredInstanceExtensions (provider s));
      [contradiction|reflexivity]. }
  exists (mCreateInfo (session s)
                      (provRequiredInstanceExtensions (provider s))).
  assert (Hinfo :
    ppEnabledExtensionNames
      (mCreateInfo (session s) (provRequiredInstanceExtensions (provider s))) =
      provRequiredInstanceExtensions (provider s) ++
      [VK_KHR_PORTABILITY_ENUMERATION_EXTENSION_NAME] /\
    enabledExtensionCount
      (mCreateInfo (session s) (provRequiredInstanceExtensions (provider s))) =
      uint32 (Z.of_nat (List.length
                (provRequiredInstanceExtensions (provider s))) + 1) /\
    flags (mCreateInfo (session s)
                       (provRequiredInstanceExtensions (provider s))) =
      VK_INSTANCE_CREATE_ENUMERATE_PORTABILITY_BIT_KHR /\
    enabledLayerCount
      (mCreateInfo (session s) (provRequiredInstanceExtensions (provider s)))
      = 0 /\
    pApplicationName
      (pApplicationInfo
         (mCreateInfo (session s)
                      (provRequiredInstanceExtensions (provider s)))) =
      c_str (mApplicationName (session s))).
  { unfold mCreateInfo.
    cbn [ppEnabledExtensionNames enabledExtensionCount flags enabledLayerCount
         pApplicationInfo pApplicationName mAppInfo].
    rewrite emplace_back_all. cbn [app]. unfold emplace_back.
    rewrite length_app. cbn [List.length].
    repeat split. f_equal. lia. }
  unfold initVulkan. run. rewrite Hcount. cbn.
  rewrite forEach_calls. cbn.
  destruct (provCreateInstance _ _ _) as [[r h] p1]; cbn.
  destruct (r =? VK_SUCCESS); cbn.
  2:{ eexists. split; [sameCalls|exact Hinfo]. }
  destruct (provEnumeratePhysicalDevices _ _ _ _) as [[n ds] p2]; cbn.
  destruct (n =? 0); cbn.
  { eexists. split; [sameCalls|exact Hinfo]. }
  destruct (provEnumeratePhysicalDevices _ _ _ _) as [[n2 ds2] p3]; cbn.
  destruct (provCreateWindowSurface _ _ _ _) as [[r2 h2] p4]; cbn.
  destruct (r2 =? VK_SUCCESS); cbn.
  - eexists. split; [sameCalls|exact Hinfo].
  - eexists. split; [sameCalls|exact Hinfo].
Qed.

(** X6: [initVulkan] returns success only if the provider reported at
    least one extension, created the instance with VK_SUCCESS, counted
    at least one physical device and created the surface with
    VK_SUCCESS; the session then holds the instance and surface handles
    the provider wrote, its window handle and application name being
    what they were. *)
Theorem initVulkan_success_conditions (s : World P) :
  fst (initVulkan s) = true ->
  exists h p1 n ds p2 n2 ds2 p3 hs p4,
    provRequiredInstanceExtensions (provider s) <> [] /\
    provCreateInstance
      (mCreateInfo (session s) (provRequiredInstanceExtensions (provider s)))
      (mInstance (session s)) (provider s) = (VK_SUCCESS, h, p1) /\
    provEnumeratePhysicalDevices h 0 None p1 = (n, ds, p2) /\
    n <> 0 /\
    provEnumeratePhysicalDevices
      h n (Some (repeat VK_NULL_HANDLE (Z.to_nat n))) p2 = (n2, ds2, p3) /\
    provCreateWindowSurface h (mWindow (session s)) (mSurface (session s)) p3
      = (VK_SUCCESS, hs, p4) /\
    session (snd (initVulkan s)) =
      mkWindow (mWindow (session s)) (mApplicationName (session s)) h hs /\
    provider (snd (initVulkan s)) = p4.
Proof.
  intros Hok.
  destruct (initVulkan_succeeds s Hok)
    as (h & p1 & n & ds & p2 & n2 & ds2 & p3 & hs & p4 &
        Hext & Hinst & Hfirst & Hn & Hsecond & Hsurf & Hworld).
  exists h, p1, n, ds, p2, n2, ds2, p3, hs, p4.
  rewrite Hworld. cbn [session provider]. repeat split; assumption.
Qed.

(** *** The loop, the handlers and the teardown *)

(** X7: a [mainLoop] that returns has not touched the fields of the
    session or the callback slots, has created, destroyed and
    registered nothing, and has tested the close flag exactly once more
    than it has polled. *)
Theorem mainLoop_frame (fuel : nat) (s s' : World P) :
  mainLoop fuel s = Some (tt, s') ->
  session s' = session s /\
  slots s' = slots s /\
  exists new,
    calls s' = calls s ++ new /\
    filter isLifecycle new = [] /\
    filter isRegistration new = [] /\
    List.length (filter isFlagTest new) = S (List.length (filter isPoll new)).
Proof.
  intros Hret.
  destruct (mainLoop_only_calls _ _ _ Hret)
    as (Hsess & Hslots & new & Hcalls & Hloop & Hcount).
  split; [exact Hsess|]. split; [exact Hslots|].
  exists new. split; [exact Hcalls|].
  split; [|split; [|exact Hcount]];
    apply (filter_none isLoopCall _ new Hloop);
    intros [] Hc; try discriminate; reflexivity.
Qed.



Lemma c_str_whole (t : string) :
  (forall a, In a (list_ascii_of_string t) -> a <> Ascii.zero) ->
  c_str t = t.
Proof.
  induction t as [|a t IH]; cbn; intros Hnul; [reflexivity|].
  destruct (Ascii.eqb_spec a Ascii.zero) as [->|_].
  - exfalso. apply (Hnul Ascii.zero); [now left|reflexivity].
  - rewrite IH; [reflexivity|]. intros b Hb. apply Hnul. now right.
Qed.

(** X9: whenever the provider initialises and supports the API, [init]
    sets the non-resizable and the no-client-API hint, in this order,
    and then asks for a window of exactly the width and the height it
    was given (dimensions that fit a signed 32-bit [int]) and of the
    title as a C string: the title up to its first NUL byte, which is
    the whole title when it holds none.  The session keeps the whole
    title as application name. *)
Theorem init_creates_window_as_asked (width height : Z) (title : string)
    (s : World P) (p1 : P) :
  provInit (provider s) = (true, p1) ->
  provVulkanSupported p1 = true ->
  0 <= width < 2 ^ 31 ->
  0 <= height < 2 ^ 31 ->
  mApplicationName (session (snd (init width height title s))) = title /\
  (exists rest,
      calls (snd (init width height title s)) =
        calls s ++
        [GlfwInit; GlfwVulkanSupported;
         GlfwWindowHint GLFW_RESIZABLE GLFW_FALSE;
         GlfwWindowHint GLFW_CLIENT_API GLFW_NO_API;
         GlfwCreateWindow width height (c_str title)] ++ rest) /\
  ((forall a, In a (list_ascii_of_string title) -> a <> Ascii.zero) ->
   c_str title = title).
Proof.
  intros Hinit Hsup Hw Hh.
  assert (Hfit : forall z, 0 <= z < 2 ^ 31 -> int_of_unsigned z = z).
  { intros z Hz. unfold int_of_unsigned, uint32.
    rewrite Z.mod_small by lia.
    destruct (Z.ltb_spec z (2 ^ 31)); [reflexivity|lia]. }
  rewrite <- and_assoc. split; [|apply c_str_whole].
  unfold init. run. rewrite Hinit. cbn. rewrite Hsup. cbn.
  rewrite (Hfit width Hw), (Hfit height Hh).
  destruct (provCreateWindow _ _ _ _) as [h p2]; cbn.
  destruct (h =? nullptr); cbn.
  { split; [reflexivity|]. eexists. sameCalls. }
  match goal with |- context [initVulkan ?w] =>
    destruct (initVulkan_frame w) as (mid & Hmid & _ & _ & _ & Hname & _);
    destruct (initVulkan w) as [v s2] end.
  cbn in *. destruct v; cbn; rewrite Hmid; (split; [exact Hname|]);
    eexists; sameCalls.
Qed.

(** X10: [cleanup] releases the handles the session holds and leaves
    them in the session: no field is reset, so a second [cleanup] hands
    the very same handles to the destroy functions again. *)
Theorem cleanup_keeps_handles (s : World P) :
  session (snd (cleanup s)) = session s /\
  calls (snd (cleanup s)) = calls s ++ cleanupCalls (session s) /\
  calls (snd (cleanup (snd (cleanup s)))) =
    calls s ++ cleanupCalls (session s) ++ cleanupCalls (session s).
Proof.
  unfold cleanup. run. split; [reflexivity|]. split; sameCalls.
Qed.

(** X11: [init] followed at once by [cleanup] never polls, never tests
    the close flag and runs no event handler: none of the calls made is
    a poll, a flag test or a log line written by a handler. *)
Theorem init_then_cleanup_runs_no_handler
    (width height : Z) (title : string) (s s1 : World P) :
  init width height title s = (true, s1) ->
  exists new,
    calls (snd (cleanup s1)) = calls s ++ new /\
    filter isPoll new = [] /\
    filter isFlagTest new = [] /\
    filter isHandlerLog new = [].
Proof.
  intros Hinit.
  destruct (init_succeeds _ _ _ _ _ Hinit)
    as (s0 & sv & _ & _ & _ & _ & Hcalls0 & Hvulkan & Hs1).
  assert (Hok : fst (initVulkan s0) = true) by now rewrite Hvulkan.
  destruct (initVulkan_succeeds s0 Hok)
    as (h & p1 & n & ds & p2 & n2 & ds2 & p3 & hs & p4 &
        _ & _ & _ & _ & _ & _ & Hsv).
  rewrite Hvulkan in Hsv. cbn [snd] in Hsv. subst sv.
  cbn [session provider calls] in Hs1.
  exists (windowCalls width height title ++
          instanceCalls (session s0)
                        (provRequiredInstanceExtensions (provider s0)) ++
          [VkEnumeratePhysicalDevices h 0 None;
           VkEnumeratePhysicalDevices
             h n (Some (repeat VK_NULL_HANDLE (Z.to_nat n)));
           LoggerLog 1 ("%s: Found %u physical device(s)" ++ nl)
                     [Str "initVulkan"; UInt n2];
           GlfwCreateWindowSurface h (mWindow (session s0))] ++
          registrationCalls (mWindow (session s0)) ++
          [LoggerLog 1 ("%s: Window successfully initialized" ++ nl)
                     [Str "init"]] ++
          cleanupCalls (session s1)).
  split.
  - unfold cleanup. run. rewrite Hs1. cbn [session calls]. rewrite Hcalls0.
    sameCalls.
  - unfold instanceCalls.
    rewrite !filter_app, !filter_logs by reflexivity.
    repeat split.
Qed.

End Facts.

(** * The statements on the scripted provider *)

Section Runs.
Import Scripted.

Ltac evaluate := vm_compute; reflexivity.

(** [init] on a machine without Vulkan support. *)
Lemma init_unsupported_api_run :
  provInit (provider (fresh noVulkan)) = (true, noVulkan) /\
  provVulkanSupported noVulkan = false /\
  fst (init 800 600 "App" (fresh noVulkan)) = false /\
  calls (snd (init 800 600 "App" (fresh noVulkan))) =
    [GlfwInit; GlfwVulkanSupported; GlfwTerminate;
     LoggerLog 1 ("%s: Vulkan is not supported" ++ nl) [Str "init"]].
Proof.
  assert (Hinit : provInit (provider (fresh noVulkan)) = (true, noVulkan))
    by evaluate.
  assert (Hsup : provVulkanSupported noVulkan = false) by evaluate.
  destruct (@init_unsupported_api State scripted 800 600 "App"
              (fresh noVulkan) noVulkan Hinit Hsup)
    as (new & Hcalls & Hres & Hnew & _).
  split; [exact Hinit|]. split; [exact Hsup|]. split; [exact Hres|].
  rewrite Hcalls, Hnew. evaluate.
Defined.

(** [initVulkan] on a machine that reports no instance extension. *)
Lemma initVulkan_no_extensions_run :
  provRequiredInstanceExtensions (provider (created noExtensions)) = [] /\
  fst (initVulkan (created noExtensions)) = false /\
  mInstance (session (snd (initVulkan (created noExtensions)))) =
    VK_NULL_HANDLE /\
  mSurface (session (snd (initVulkan (created noExtensions)))) =
    VK_NULL_HANDLE.
Proof.
  assert (Hext : provRequiredInstanceExtensions
                   (provider (created noExtensions)) = []) by evaluate.
  destruct (@initVulkan_no_extensions State scripted (created noExtensions)
              Hext) as (Hres & Hsess & _).
  split; [exact Hext|]. split; [exact Hres|].
  rewrite Hsess. split; evaluate.
Defined.

(** [init] on a machine where GLFW does not initialise. *)
Lemma init_early_failure_keeps_fields_run :
  fst (provInit (provider (fresh noGlfw))) = false /\
  fst (init 800 600 "App" (fresh noGlfw)) = false /\
  session (snd (init 800 600 "App" (fresh noGlfw))) = newWindow.
Proof.
  assert (Hinit : fst (provInit (provider (fresh noGlfw))) = false)
    by evaluate.
  destruct (@init_early_failure_keeps_fields State scripted 800 600 "App"
              (fresh noGlfw) (or_introl Hinit)) as (Hres & Hsess & _).
  split; [exact Hinit|]. split; [exact Hres|exact Hsess].
Defined.

(** [cleanup] after [init] on the healthy machine. *)
Lemma cleanup_order_run :
  init 800 600 "App" (fresh healthy) = (true, running) /\
  providerCalls (skipn (List.length (calls running))
                       (calls (snd (cleanup running)))) =
    [VkDestroySurfaceKHR 42 43; VkDestroyInstance 42; GlfwDestroyWindow 41;
     GlfwTerminate].
Proof.
  assert (Hinit : init 800 600 "App" (fresh healthy) = (true, running))
    by evaluate.
  destruct (@cleanup_order State scripted 800 600 "App" (fresh healthy)
              running Hinit) as (_ & new & Hcalls & _ & Hprov).
  split; [exact Hinit|].
  rewrite Hcalls, skipn_app, skipn_all, Nat.sub_diag.
  cbn [skipn app]. rewrite Hprov. evaluate.
Defined.

(** A key event with action 3, a mouse event with button 7, and a
    left-button event with the repeat action. *)
Lemma unknown_values_are_labelled_run :
  (3 <> GLFW_PRESS /\ 3 <> GLFW_RELEASE /\ 3 <> GLFW_REPEAT) /\
  calls (snd (handleKeyEvents 256 9 3 0 running)) =
    calls running ++
    [GlfwGetKeyName 256 0;
     LoggerLog 1 ("%s: key %s (key %i, scancode %i) %s" ++ nl)
               [Str "handleKeyEvents"; CStr None; Int 256; Int 9;
                Str "unknown"]] /\
  (7 <> GLFW_MOUSE_BUTTON_LEFT /\ 7 <> GLFW_MOUSE_BUTTON_MIDDLE /\
   7 <> GLFW_MOUSE_BUTTON_RIGHT) /\
  calls (snd (handleMouseButtonEvents 7 1 0 running)) =
    calls running ++
    [LoggerLog 1 ("%s: %s mouse button (%i) %s" ++ nl)
               [Str "handleMouseButtonEvents"; Str "unknown"; Int 7;
                Str "pressed"]] /\
  (GLFW_REPEAT <> GLFW_PRESS /\ GLFW_REPEAT <> GLFW_RELEASE) /\
  calls (snd (handleMouseButtonEvents 0 GLFW_REPEAT 0 running)) =
    calls running ++
    [LoggerLog 1 ("%s: %s mouse button (%i) %s" ++ nl)
               [Str "handleMouseButtonEvents"; Str "left"; Int 0;
                Str "unknown"]] /\
  calls (snd (handleMouseButtonEvents 7 GLFW_REPEAT 0 running)) =
    calls running ++
    [LoggerLog 1 ("%s: %s mouse button (%i) %s" ++ nl)
               [Str "handleMouseButtonEvents"; Str "unknown"; Int 7;
                Str "unknown"]].
Proof.
  assert (Hk : 3 <> GLFW_PRESS /\ 3 <> GLFW_RELEASE /\ 3 <> GLFW_REPEAT)
    by (repeat split; discriminate).
  assert (Hb : 7 <> GLFW_MOUSE_BUTTON_LEFT /\ 7 <> GLFW_MOUSE_BUTTON_MIDDLE /\
               7 <> GLFW_MOUSE_BUTTON_RIGHT)
    by (repeat split; discriminate).
  assert (Ha : GLFW_REPEAT <> GLFW_PRESS /\ GLFW_REPEAT <> GLFW_RELEASE)
    by (repeat split; discriminate).
  destruct (@unknown_values_are_labelled State scripted)
    as (Hkey & Hbutton & Haction & Hboth & _).
  destruct Hk as (K1 & K2 & K3). destruct Hb as (B1 & B2 & B3).
  destruct Ha as (A1 & A2).
  split; [repeat split; assumption|]. split.
  { rewrite (Hkey 256 9 3 0 running K1 K2 K3). evaluate. }
  split; [repeat split; assumption|]. split.
  { rewrite (Hbutton 7 1 0 running B1 B2 B3). evaluate. }
  split; [repeat split; assumption|]. split.
  { rewrite (Haction 0 GLFW_REPEAT 0 running A1 A2). evaluate. }
  rewrite (Hboth 7 GLFW_REPEAT 0 running B1 B2 B3 A1 A2). evaluate.
Defined.

(** Key 256 (escape) has no printable name on the healthy machine. *)
Lemma key_name_is_logged_as_returned_run :
  provGetKeyName 256 0 (provider running) = None /\
  calls (snd (handleKeyEvents 256 9 1 0 running)) =
    calls running ++
    [GlfwGetKeyName 256 0;
     LoggerLog 1 ("%s: key %s (key %i, scancode %i) %s" ++ nl)
               [Str "handleKeyEvents"; CStr None; Int 256; Int 9;
                Str "pressed"]] /\
  CStr (provGetKeyName 256 0 (provider running)) <> Str "unknown".
Proof.
  assert (Hnone : provGetKeyName 256 0 (provider running) = None)
    by evaluate.
  destruct (@key_name_is_logged_as_returned State scripted 256 9 1 0 running)
    as (Hcalls & Hnull).
  split; [exact Hnone|]. split.
  - rewrite Hcalls. evaluate.
  - exact (proj2 (Hnull Hnone)).
Defined.

(** The loop on the healthy machine: the window is closed during the
    second poll, whose remaining key event is still dispatched; the
    third batch of input is never polled. *)
Lemma mainLoop_returns_at_close_run :
  closeFlag (afterPolls 0 running) = false /\
  closeFlag (afterPolls 1 running) = false /\
  closeFlag (afterPolls 2 running) = true /\
  mainLoop 1 running = None /\
  (exists k, (k <= 5)%nat /\ closeFlag (afterPolls k running) = true) /\
  exists s',
    mainLoop 5 running = Some (tt, s') /\
    polls (provider s') = [[Key 41 65 38 0 0]] /\
    calls s' =
      calls running ++
      [GlfwWindowShouldClose 41; GlfwPollEvents;
       GlfwGetWindowUserPointer 41; GlfwGetKeyName 65 0;
       LoggerLog 1 ("%s: key %s (key %i, scancode %i) %s" ++ nl)
                 [Str "handleKeyEvents"; Str "a"; Int 65; Int 38;
                  Str "pressed"];
       GlfwWindowShouldClose 41; GlfwPollEvents;
       GlfwGetWindowUserPointer 41;
       LoggerLog 1 ("%s: %s mouse button (%i) %s" ++ nl)
                 [Str "handleMouseButtonEvents"; Str "left"; Int 0;
                  Str "pressed"];
       GlfwGetWindowUserPointer 41;
       LoggerLog 1 ("%s: Window close event... bye!" ++ nl)
                 [Str "handleWindowCloseEvents"];
       GlfwGetWindowUserPointer 41; GlfwGetKeyName 256 0;
       LoggerLog 1 ("%s: key %s (key %i, scancode %i) %s" ++ nl)
                 [Str "handleKeyEvents"; CStr None; Int 256; Int 9;
                  Str "unknown"];
       GlfwWindowShouldClose 41].
Proof.
  destruct (@mainLoop_returns_at_close State scripted)
    as (Hreturns & Hpolling & Hreturned & _).
  assert (H0 : closeFlag (afterPolls 0 running) = false) by evaluate.
  assert (H1 : closeFlag (afterPolls 1 running) = false) by evaluate.
  assert (H2 : closeFlag (afterPolls 2 running) = true) by evaluate.
  assert (Hbefore : forall j, (j < 2)%nat ->
                      closeFlag (afterPolls j running) = false).
  { intros [|[|j]] Hj; [exact H0|exact H1|lia]. }
  assert (Hopen : forall j, (j <= 1)%nat ->
                    closeFlag (afterPolls j running) = false).
  { intros j Hj. apply Hbefore. lia. }
  assert (Hfuel : (2 <= 5)%nat) by lia.
  pose proof (Hreturns 2%nat running Hbefore H2 5%nat Hfuel) as Hrun.
  split; [exact H0|]. split; [exact H1|]. split; [exact H2|].
  split; [exact (Hpolling 1%nat running Hopen)|].
  split.
  { destruct (Hreturned 5%nat running _ Hrun) as (k & Hk & _ & Hat & _).
    exists k. split; assumption. }
  eexists. split; [exact Hrun|].
  split; evaluate.
Defined.

(** [init] on four machines, one for each cause of failure. *)
Lemma init_failure_paths_run :
  (fst (provInit (provider (fresh noGlfw))) = false /\
   fst (init 800 600 "App" (fresh noGlfw)) = false /\
   calls (snd (init 800 600 "App" (fresh noGlfw))) =
     [GlfwInit; LoggerLog 1 ("%s: glfwInit() error" ++ nl) [Str "init"]]) /\
  (provInit (provider (fresh noVulkan)) = (true, noVulkan) /\
   provVulkanSupported noVulkan = false /\
   fst (init 800 600 "App" (fresh noVulkan)) = false) /\
  (provInit (provider (fresh noWindow)) = (true, noWindow) /\
   provVulkanSupported noWindow = true /\
   provCreateWindow
     (int_of_unsigned 800) (int_of_unsigned 600) (c_str "App")
     (provWindowHint GLFW_CLIENT_API GLFW_NO_API
        (provWindowHint GLFW_RESIZABLE GLFW_FALSE noWindow))
     = (nullptr, noWindow) /\
   fst (init 800 600 "App" (fresh noWindow)) = false /\
   filter isTerminate (calls (snd (init 800 600 "App" (fresh noWindow)))) =
     [GlfwTerminate]) /\
  (provInit (provider (fresh noSurface)) = (true, noSurface) /\
   provVulkanSupported noSurface = true /\
   provCreateWindow
     (int_of_unsigned 800) (int_of_unsigned 600) (c_str "App")
     (provWindowHint GLFW_CLIENT_API GLFW_NO_API
        (provWindowHint GLFW_RESIZABLE GLFW_FALSE noSurface))
     = (41, noSurface) /\
   41 <> nullptr /\
   fst (initVulkan (enteringVulkan 800 600 "App" 41 noSurface
                                   (fresh noSurface))) = false /\
   fst (init 800 600 "App" (fresh noSurface)) = false /\
   existsb isLog (calls (snd (init 800 600 "App" (fresh noSurface)))) = true /\
   filter isTerminate (calls (snd (init 800 600 "App" (fresh noSurface)))) =
     [GlfwTerminate]).
Proof.
  split; [|split; [|split]].
  - assert (Hinit : fst (provInit (provider (fresh noGlfw))) = false)
      by evaluate.
    destruct (proj1 (@init_failure_paths State scripted 800 600 "App"
                       (fresh noGlfw)) Hinit) as (Hres & _ & Hcalls).
    split; [exact Hinit|]. split; [exact Hres|]. rewrite Hcalls. evaluate.
  - assert (Hinit : provInit (provider (fresh noVulkan)) = (true, noVulkan))
      by evaluate.
    assert (Hsup : provVulkanSupported noVulkan = false) by evaluate.
    destruct (proj1 (proj2 (@init_failure_paths State scripted 800 600 "App"
                              (fresh noVulkan))) noVulkan Hinit Hsup)
      as (Hres & _).
    split; [exact Hinit|]. split; [exact Hsup|exact Hres].
  - assert (Hinit : provInit (provider (fresh noWindow)) = (true, noWindow))
      by evaluate.
    assert (Hsup : provVulkanSupported noWindow = true) by evaluate.
    assert (Hwin : provCreateWindow
              (int_of_unsigned 800) (int_of_unsigned 600) (c_str "App")
              (provWindowHint GLFW_CLIENT_API GLFW_NO_API
                 (provWindowHint GLFW_RESIZABLE GLFW_FALSE noWindow))
              = (nullptr, noWindow)) by evaluate.
    destruct (proj1 (proj2 (proj2
                (@init_failure_paths State scripted 800 600 "App"
                   (fresh noWindow)))) noWindow noWindow Hinit Hsup Hwin)
      as (Hres & _ & Hcalls).
    split; [exact Hinit|]. split; [exact Hsup|]. split; [exact Hwin|].
    split; [exact Hres|]. rewrite Hcalls. evaluate.
  - assert (Hinit : provInit (provider (fresh noSurface)) = (true, noSurface))
      by evaluate.
    assert (Hsup : provVulkanSupported noSurface = true) by evaluate.
    assert (Hwin : provCreateWindow
              (int_of_unsigned 800) (int_of_unsigned 600) (c_str "App")
              (provWindowHint GLFW_CLIENT_API GLFW_NO_API
                 (provWindowHint GLFW_RESIZABLE GLFW_FALSE noSurface))
              = (41, noSurface)) by evaluate.
    assert (Hh : 41 <> nullptr) by discriminate.
    assert (Hvulkan : fst (initVulkan (enteringVulkan 800 600 "App" 41
                                         noSurface (fresh noSurface)))
                      = false) by evaluate.
    destruct (proj1 (proj2 (proj2 (proj2
                (@init_failure_paths State scripted 800 600 "App"
                   (fresh noSurface))))) noSurface 41 noSurface
                Hinit Hsup Hwin Hh Hvulkan) as (Hres & _).
    destruct (proj2 (proj2 (proj2 (proj2
                (@init_failure_paths State scripted 800 600 "App"
                   (fresh noSurface))))) Hres)
      as (new & Hcalls & Hlog & Hterm & _).
    split; [exact Hinit|]. split; [exact Hsup|]. split; [exact Hwin|].
    split; [exact Hh|]. split; [exact Hvulkan|]. split; [exact Hres|].
    rewrite Hcalls. cbn [calls fresh app].
    split; [exact Hlog|]. rewrite Hterm. evaluate.
Defined.

(** [initVulkan] without a GPU, and with one. *)
Lemma initVulkan_device_enumeration_run :
  (provRequiredInstanceExtensions (provider (created noGpu)) <> [] /\
   provCreateInstance
     (mCreateInfo (session (created noGpu))
                  (provRequiredInstanceExtensions (provider (created noGpu))))
     (mInstance (session (created noGpu))) (provider (created noGpu))
     = (VK_SUCCESS, 42, noGpu) /\
   provEnumeratePhysicalDevices 42 0 None noGpu = (0, [], noGpu) /\
   fst (initVulkan (created noGpu)) = false /\
   session (snd (initVulkan (created noGpu))) =
     mkWindow 41 "App" 42 VK_NULL_HANDLE) /\
  (provEnumeratePhysicalDevices 42 0 None healthy = (1, [], healthy) /\
   provEnumeratePhysicalDevices 42 1 (Some [VK_NULL_HANDLE]) healthy
     = (1, [7], healthy) /\
   provCreateWindowSurface 42 41 VK_NULL_HANDLE healthy
     = (VK_SUCCESS, 43, healthy) /\
   fst (initVulkan (created healthy)) = true /\
   session (snd (initVulkan (created healthy))) = mkWindow 41 "App" 42 43).
Proof.
  assert (Hne : forall p, extensions p = extensions healthy ->
                  provRequiredInstanceExtensions (provider (created p)) <> []).
  { intros p Hp. cbn. rewrite Hp. discriminate. }
  assert (Hone : (1 : Z) <> 0) by discriminate.
  split.
  - assert (Hext : extensions noGpu = extensions healthy) by evaluate.
    assert (Hinst : provCreateInstance
              (mCreateInfo (session (created noGpu))
                 (provRequiredInstanceExtensions (provider (created noGpu))))
              (mInstance (session (created noGpu))) (provider (created noGpu))
              = (VK_SUCCESS, 42, noGpu)) by evaluate.
    assert (Henum : provEnumeratePhysicalDevices 42 0 None noGpu
                    = (0, [], noGpu)) by evaluate.
    destruct (proj1 (@initVulkan_device_enumeration State scripted
                       (created noGpu) 42 noGpu noGpu 0 []
                       (Hne noGpu Hext) Hinst Henum) eq_refl)
      as (Hres & Hsess & _).
    split; [exact (Hne noGpu Hext)|].
    split; [exact Hinst|]. split; [exact Henum|].
    split; [exact Hres|]. rewrite Hsess. evaluate.
  - assert (Hinst : provCreateInstance
              (mCreateInfo (session (created healthy))
                 (provRequiredInstanceExtensions (provider (created healthy))))
              (mInstance (session (created healthy)))
              (provider (created healthy))
              = (VK_SUCCESS, 42, healthy)) by evaluate.
    assert (Henum : provEnumeratePhysicalDevices 42 0 None healthy
                    = (1, [], healthy)) by evaluate.
    assert (Henum2 : provEnumeratePhysicalDevices
                       42 1 (Some (repeat VK_NULL_HANDLE (Z.to_nat 1))) healthy
                     = (1, [7], healthy)) by evaluate.
    assert (Hsurf : provCreateWindowSurface
                      42 (mWindow (session (created healthy)))
                      (mSurface (session (created healthy))) healthy
                    = (VK_SUCCESS, 43, healthy)) by evaluate.
    destruct (proj2 (@initVulkan_device_enumeration State scripted
                       (created healthy) 42 healthy healthy 1 []
                       (Hne healthy eq_refl) Hinst Henum) Hone
                    1 [7] healthy VK_SUCCESS 43 healthy Henum2 Hsurf)
      as (Hres & Hsess & _).
    split; [exact Henum|]. split; [exact Henum2|]. split; [exact Hsurf|].
    split; [exact Hres|]. rewrite Hsess. evaluate.
Defined.

(** C1 as stated fails on two paths.  When the provider
    initialisation fails, [init] returns failure without a single
    shutdown call.  When the surface cannot be created, [init] returns
    failure, yet the session still holds the window handle and the
    instance handle it obtained, and the only release call made is the
    provider shutdown. *)
Lemma init_failure_leaves_state :
  (fst (init 800 600 "App" (fresh noGlfw)) = false /\
   filter isTerminate (calls (snd (init 800 600 "App" (fresh noGlfw)))) = []) /\
  (fst (init 800 600 "App" (fresh noSurface)) = false /\
   mWindow (session (snd (init 800 600 "App" (fresh noSurface)))) <> nullptr /\
   mInstance (session (snd (init 800 600 "App" (fresh noSurface))))
     <> VK_NULL_HANDLE /\
   filter isTeardown (calls (snd (init 800 600 "App" (fresh noSurface)))) =
     [GlfwTerminate]).
Proof.
  split; [split; evaluate|].
  split; [evaluate|]. split; [|split].
  - vm_compute. discriminate.
  - vm_compute. discriminate.
  - evaluate.
Qed.

(** C2 as stated fails: two providers that differ in nothing but the
    devices they enumerate make [initVulkan] succeed on one and fail on
    the other. *)
Lemma device_count_decides_result :
  noGpu = withDevices [] healthy /\
  fst (initVulkan (created healthy)) = true /\
  fst (initVulkan (created noGpu)) = false.
Proof.
  split; [reflexivity|]. split; evaluate.
Qed.

(** *** Further runs *)

(** A successful [init] on the healthy machine. *)
Lemma init_success_state_run :
  init 800 600 "App" (fresh healthy) = (true, running) /\
  mWindow (session running) <> nullptr /\
  mApplicationName (session running) = "App" /\
  slots running = allSlots.
Proof.
  assert (Hinit : init 800 600 "App" (fresh healthy) = (true, running))
    by evaluate.
  destruct (@init_success_state State scripted 800 600 "App" (fresh healthy)
              running Hinit) as (Hwin & Hname & Hslots & _).
  split; [exact Hinit|]. split; [exact Hwin|]. split; [exact Hname|].
  exact Hslots.
Defined.

(** A whole run on the healthy machine. *)
Lemma lifecycle_is_reversed_run :
  init 800 600 "App" (fresh healthy) = (true, running) /\
  mainLoop 5 running = Some (tt, closed) /\
  exists info,
    filter isLifecycle (calls (snd (cleanup closed))) =
      [GlfwInit; GlfwCreateWindow 800 600 "App"; VkCreateInstance info;
       GlfwCreateWindowSurface 42 41; VkDestroySurfaceKHR 42 43;
       VkDestroyInstance 42; GlfwDestroyWindow 41; GlfwTerminate].
Proof.
  assert (Hinit : init 800 600 "App" (fresh healthy) = (true, running))
    by evaluate.
  assert (Hloop : mainLoop 5 running = Some (tt, closed)) by evaluate.
  destruct (@lifecycle_is_reversed State scripted 800 600 "App" 5%nat
              (fresh healthy) running closed Hinit Hloop)
    as (new & info & Hcalls & _ & Hfilter).
  split; [exact Hinit|]. split; [exact Hloop|].
  exists info. rewrite Hcalls. cbn [calls fresh app]. rewrite Hfilter.
  evaluate.
Defined.

(** [initVulkan] on a machine whose driver refuses the instance. *)
Lemma initVulkan_instance_failure_run :
  provRequiredInstanceExtensions (provider (created noInstance)) <> [] /\
  provCreateInstance
    (mCreateInfo (session (created noInstance))
       (provRequiredInstanceExtensions (provider (created noInstance))))
    (mInstance (session (created noInstance))) (provider (created noInstance))
    = (-9, VK_NULL_HANDLE, noInstance) /\
  -9 <> VK_SUCCESS /\
  fst (initVulkan (created noInstance)) = false /\
  filter isEnumerate (calls (snd (initVulkan (created noInstance)))) = [] /\
  filter isCreateSurface (calls (snd (initVulkan (created noInstance)))) = [].
Proof.
  assert (Hext : provRequiredInstanceExtensions (provider (created noInstance))
                 <> []) by (vm_compute; discriminate).
  assert (Hinst : provCreateInstance
            (mCreateInfo (session (created noInstance))
               (provRequiredInstanceExtensions (provider (created noInstance))))
            (mInstance (session (created noInstance)))
            (provider (created noInstance))
            = (-9, VK_NULL_HANDLE, noInstance)) by evaluate.
  assert (Hr : -9 <> VK_SUCCESS) by discriminate.
  destruct (@initVulkan_instance_failure State scripted (created noInstance)
              (-9) VK_NULL_HANDLE noInstance Hext Hinst Hr)
    as (Hres & _ & new & Hcalls & _ & Henum & Hsurf).
  split; [exact Hext|]. split; [exact Hinst|]. split; [exact Hr|].
  split; [exact Hres|]. rewrite Hcalls. cbn [calls created app].
  split; [exact Henum|exact Hsurf].
Defined.

(** The descriptor [initVulkan] builds on the healthy machine. *)
Lemma initVulkan_instance_descriptor_run :
  provRequiredInstanceExtensions (provider (created healthy)) <> [] /\
  exists info,
    In (VkCreateInstance info) (calls (snd (initVulkan (created healthy)))) /\
    ppEnabledExtensionNames info =
      ["VK_KHR_surface"; "VK_KHR_xcb_surface";
       "VK_KHR_portability_enumeration"] /\
    enabledExtensionCount info = 3.
Proof.
  assert (Hext : provRequiredInstanceExtensions (provider (created healthy))
                 <> []) by (vm_compute; discriminate).
  destruct (@initVulkan_instance_descriptor State scripted (created healthy)
              Hext) as (info & after & Hcalls & Hnames & Hcount & _).
  split; [exact Hext|]. exists info. split; [|split].
  - rewrite Hcalls. apply in_or_app. right. apply in_or_app. right.
    apply in_or_app. right. left. reflexivity.
  - rewrite Hnames. evaluate.
  - rewrite Hcount. evaluate.
Defined.

(** A successful [initVulkan] on the healthy machine. *)
Lemma initVulkan_success_conditions_run :
  fst (initVulkan (created healthy)) = true /\
  exists h hs,
    session (snd (initVulkan (created healthy))) = mkWindow 41 "App" h hs.
Proof.
  assert (Hok : fst (initVulkan (created healthy)) = true) by evaluate.
  destruct (@initVulkan_success_conditions State scripted (created healthy)
              Hok)
    as (h & p1 & n & ds & p2 & n2 & ds2 & p3 & hs & p4 &
        _ & _ & _ & _ & _ & _ & Hsess & _).
  split; [exact Hok|]. exists h, hs. rewrite Hsess. evaluate.
Defined.

(** The loop on the healthy machine, two polls long. *)
Lemma mainLoop_frame_run :
  mainLoop 5 running = Some (tt, closed) /\
  session closed = session running /\
  slots closed = slots running /\
  List.length (filter isFlagTest (calls closed)) = 3%nat /\
  List.length (filter isPoll (calls closed)) = 2%nat.
Proof.
  assert (Hloop : mainLoop 5 running = Some (tt, closed)) by evaluate.
  destruct (@mainLoop_frame State scripted 5%nat running closed Hloop)
    as (Hsess & Hslots & _).
  split; [exact Hloop|]. split; [exact Hsess|]. split; [exact Hslots|].
  split; evaluate.
Defined.


(** [init] asked for an 800 by 600 window, once titled "App" and once
    with a title that holds a NUL byte. *)
Lemma init_creates_window_as_asked_run :
  provInit (provider (fresh healthy)) = (true, healthy) /\
  provVulkanSupported healthy = true /\
  0 <= 800 < 2 ^ 31 /\
  0 <= 600 < 2 ^ 31 /\
  (mApplicationName (session (snd (init 800 600 "App" (fresh healthy))))
     = "App" /\
   In (GlfwCreateWindow 800 600 "App")
      (calls (snd (init 800 600 "App" (fresh healthy))))) /\
  (mApplicationName (session (snd (init 800 600 nulTitle (fresh healthy))))
     = nulTitle /\
   In (GlfwCreateWindow 800 600 "A")
      (calls (snd (init 800 600 nulTitle (fresh healthy))))).
Proof.
  assert (Hinit : provInit (provider (fresh healthy)) = (true, healthy))
    by evaluate.
  assert (Hsup : provVulkanSupported healthy = true) by evaluate.
  assert (Hw : 0 <= 800 < 2 ^ 31) by lia.
  assert (Hh : 0 <= 600 < 2 ^ 31) by lia.
  assert (Happ : forall a, In a (list_ascii_of_string "App") ->
                   a <> Ascii.zero).
  { cbn. intros a [<-|[<-|[<-|[]]]]; discriminate. }
  destruct (@init_creates_window_as_asked State scripted 800 600 "App"
              (fresh healthy) healthy Hinit Hsup Hw Hh)
    as (Hname & (rest & Hcalls) & Hwhole).
  destruct (@init_creates_window_as_asked State scripted 800 600 nulTitle
              (fresh healthy) healthy Hinit Hsup Hw Hh)
    as (Hname' & (rest' & Hcalls') & _).
  split; [exact Hinit|]. split; [exact Hsup|]. split; [exact Hw|].
  split; [exact Hh|]. split; split.
  - exact Hname.
  - rewrite Hcalls, (Hwhole Happ). apply in_or_app. right.
    apply in_or_app. left. cbn. tauto.
  - exact Hname'.
  - rewrite Hcalls'. apply in_or_app. right. apply in_or_app. left.
    cbn. tauto.
Defined.

(** [init] and [cleanup] back to back on the healthy machine. *)
Lemma init_then_cleanup_runs_no_handler_run :
  init 800 600 "App" (fresh healthy) = (true, running) /\
  filter isPoll (calls (snd (cleanup running))) = [] /\
  filter isFlagTest (calls (snd (cleanup running))) = [] /\
  filter isHandlerLog (calls (snd (cleanup running))) = [].
Proof.
  assert (Hinit : init 800 600 "App" (fresh healthy) = (true, running))
    by evaluate.
  destruct (@init_then_cleanup_runs_no_handler State scripted 800 600 "App"
              (fresh healthy) running Hinit)
    as (new & Hcalls & Hpoll & Hflag & Hlog).
  split; [exact Hinit|]. rewrite Hcalls. cbn [calls fresh app].
  split; [exact Hpoll|]. split; [exact Hflag|exact Hlog].
Defined.

End Runs.
